(** * The gallery generator of SfePy ([script/gen_gallery.py])

    A shallow embedding of the script: the Python byte-string and
    [posixpath] primitives it calls, the path mapper, the three generation
    stages as computations that log every call to an external collaborator,
    and the driver.  The statements that follow are about these
    definitions. *)

From Stdlib Require Import ZArith Lia.
From Stdlib Require Import Strings.String Strings.Ascii.
From Stdlib Require Import QArith.
From stdpp Require Import base list sorting strings gmap fin_maps.

Local Open Scope Z_scope.

(** ** Python 2 [str] primitives *)

Module PyStr.

(** [c in s] for a one-character [c]. *)
Fixpoint mem (c : ascii) (s : string) : bool :=
  match s with
  | "" => false
  | String a t => Ascii.eqb a c || mem c t
  end.

(** [s[n:]] and [s[:n]] for [0 <= n]. *)
Fixpoint drop (n : nat) (s : string) : string :=
  match n, s with
  | O, _ => s
  | S _, "" => ""
  | S k, String _ t => drop k t
  end.

Fixpoint take (n : nat) (s : string) : string :=
  match n, s with
  | O, _ => ""
  | S _, "" => ""
  | S k, String a t => String a (take k t)
  end.

(** [s[:-1]]. *)
Fixpoint drop_last (s : string) : string :=
  match s with
  | "" => ""
  | String a t => match t with "" => "" | _ => String a (drop_last t) end
  end.

(** [s.startswith(p)], [s.endswith(c)] for a one-character [c]. *)
Definition startswith (p s : string) : bool := String.prefix p s.

Fixpoint endswith (c : ascii) (s : string) : bool :=
  match s with
  | "" => false
  | String a t => match t with "" => Ascii.eqb a c | _ => endswith c t end
  end.

(** [c * n]. *)
Fixpoint repeat (c : ascii) (n : nat) : string :=
  match n with
  | O => ""
  | S k => String c (repeat c k)
  end.

(** [s.replace(old, new)] scans from the left and replaces the
    occurrences of [old] that do not overlap.  [skip] counts the characters
    of the occurrence just replaced that remain to be passed over. *)
Fixpoint replace_go (old new s : string) (skip : nat) : string :=
  match s with
  | "" => ""
  | String a t =>
      match skip with
      | S k => replace_go old new t k
      | O =>
          if String.prefix old s
          then new +:+ replace_go old new t (Nat.pred (String.length old))
          else String a (replace_go old new t O)
      end
  end.

(** With an empty [old], Python puts [new] before every character and at
    the end. *)
Fixpoint interleave (new s : string) : string :=
  match s with
  | "" => new
  | String a t => new +:+ String a (interleave new t)
  end.

Definition replace (old new s : string) : string :=
  match old with
  | "" => interleave new s
  | _ => replace_go old new s O
  end.

(** [s.count(sub)]: the same scan, counting. *)
Fixpoint count_go (sub s : string) (skip : nat) : nat :=
  match s with
  | "" => O
  | String a t =>
      match skip with
      | S k => count_go sub t k
      | O =>
          if String.prefix sub s
          then S (count_go sub t (Nat.pred (String.length sub)))
          else count_go sub t O
      end
  end.

Definition count (sub s : string) : nat :=
  match sub with
  | "" => S (String.length s)
  | _ => count_go sub s O
  end.

(** [s.rfind(c)] for a one-character [c]: the highest index, or [-1]. *)
Fixpoint rfind_go (c : ascii) (s : string) (i last : Z) : Z :=
  match s with
  | "" => last
  | String a t => rfind_go c t (i + 1) (if Ascii.eqb a c then i else last)
  end.

Definition rfind (c : ascii) (s : string) : Z := rfind_go c s 0 (-1).

(** [s.rstrip(c)]. *)
Fixpoint rstrip (c : ascii) (s : string) : string :=
  match s with
  | "" => ""
  | String a t =>
      match rstrip c t with
      | "" => if Ascii.eqb a c then "" else String a ""
      | r => String a r
      end
  end.

(** [x in l] for a list of strings. *)
Definition In_list (x : string) (l : list string) : bool :=
  existsb (String.eqb x) l.

End PyStr.

(** ** [posixpath] *)

Module PosixPath.

Definition sep : ascii := "/"%char.
Definition extsep : ascii := "."%char.

(** The loop of [genericpath._splitext] that skips the leading dots of
    the file name: [true] when some character of [p] in
    [filenameIndex, dotIndex) is not a dot. *)
Fixpoint splitext_scan (p : string) (filenameIndex : Z) (n : nat) : bool :=
  match n with
  | O => false
  | S k =>
      match String.get (Z.to_nat filenameIndex) p with
      | Some a =>
          if Ascii.eqb a extsep
          then splitext_scan p (filenameIndex + 1) k
          else true
      | None => true
      end
  end.

Definition splitext (p : string) : string * string :=
  let sepIndex := PyStr.rfind sep p in
  let dotIndex := PyStr.rfind extsep p in
  if (sepIndex <? dotIndex) &&
     splitext_scan p (sepIndex + 1) (Z.to_nat (dotIndex - (sepIndex + 1)))
  then (PyStr.take (Z.to_nat dotIndex) p, PyStr.drop (Z.to_nat dotIndex) p)
  else (p, "").

(** [os.path.join(a, b)]. *)
Definition join (a b : string) : string :=
  if PyStr.startswith "/" b then b
  else if String.eqb a "" || PyStr.endswith sep a then a +:+ b
  else a +:+ "/" +:+ b.

Definition basename (p : string) : string :=
  let i := PyStr.rfind sep p + 1 in
  PyStr.drop (Z.to_nat i) p.

Definition dirname (p : string) : string :=
  let i := PyStr.rfind sep p + 1 in
  let head := PyStr.take (Z.to_nat i) p in
  if negb (String.eqb head "") &&
     negb (String.eqb head (PyStr.repeat sep (String.length head)))
  then PyStr.rstrip sep head
  else head.

End PosixPath.

(** ** What the script sees of its collaborators *)

(** The exceptions a call can raise: the user interrupt, or anything else. *)
Inductive exn : Type :=
| KeyboardInterrupt
| OtherError (what : string).

Inductive outcome (A : Type) : Type :=
| Returned (a : A)
| Raised (e : exn).
Arguments Returned {A} a.
Arguments Raised {A} e.

(** The [Struct] of solver options built by [generate_images]. *)
Record Options : Type := {
  output_filename_trunk : string;
  output_format : string;
  save_ebc : bool;
  save_regions : bool;
  save_field_meshes : bool;
  save_regions_as_groups : bool;
  solve_not : bool }.

(** What [generate_images] reads of a solved problem: [problem.ts_conf],
    [problem.ts.suffix % problem.ts.step] and [problem.get_output_name]. *)
Record Problem : Type := {
  ts_conf : option string;
  ts_suffix_step : string;
  get_output_name : string → string }.

(** The viewer object: its constructor arguments and the [filename]
    attribute the loop assigns.  The scene it keeps and is handed back in
    every call is internal to the renderer. *)
Record Viewer : Type := {
  v_filename : string;
  v_output_dir : string;
  v_offscreen : bool }.

(** The environment of one run. *)
Record World : Type := {
  data_dir : string;                              (* sfepy.data_dir *)
  output_prefix : string;                         (* output.prefix on entry *)
  mkdtemp : string;                               (* tempfile.mkdtemp() *)
  locate_files : string → string → list string;   (* pattern, root *)
  glob : string → list string;                    (* glob.glob *)
  realpath : string → string;                     (* os.path.realpath *)
  pde_solve : string → Options → outcome (option Problem);
  view_call : Viewer → bool → bool → string → outcome unit;
  thumbnail : string → string → Q → outcome unit }.

(** Every call that leaves the script, in the order it is made. *)
Inductive event : Type :=
| EMkdtemp (dir : string)
| EEnsurePath (path : string)
| ELocateFiles (pattern root : string)
| ENewViewer (v : Viewer)
| EOutputLevel (level : Z)
| EOutputPrefix (prefix : string)
| EOutput (msg : string)
| ESolve (ex_filename : string) (options : Options)
| ERender (v : Viewer) (show is_scalar_bar : bool) (fig_filename : string)
| EClf
| ERemoveFiles (dir : string)
| EGlob (pattern : string)
| EThumbnail (src dst : string) (scale : Q)
| EOpen (path : string)
| EClose (path : string) (data : string).

(** A computation logs its calls and either returns or raises. *)
Definition M (A : Type) : Type := (list event * outcome A)%type.

Global Instance M_ret : MRet M := λ A a, ([], Returned a).
Global Instance M_bind : MBind M := λ A B f c,
  match c.2 with
  | Returned a => (c.1 ++ (f a).1, (f a).2)
  | Raised e => (c.1, Raised e)
  end.

Definition emit (e : event) : M unit := ([e], Returned tt).
Definition raise {A} (e : exn) : M A := ([], Raised e).
Definition lift {A} (o : outcome A) : M A := ([], o).

(** [try: c  except e: h e]. *)
Definition try_except {A} (c : M A) (h : exn → M A) : M A :=
  match c.2 with
  | Returned a => c
  | Raised e => (c.1 ++ (h e).1, (h e).2)
  end.

(** [for x in l: body x], and the same loop threading a value. *)
Fixpoint for_each {A} (l : list A) (body : A → M unit) : M unit :=
  match l with
  | [] => mret tt
  | x :: t => body x ;; for_each t body
  end.

Fixpoint for_fold {A S} (l : list A) (s : S) (body : S → A → M S) : M S :=
  match l with
  | [] => mret s
  | x :: t => s' ← body s x; for_fold t s' body
  end.

Definition trace {A} (c : M A) : list event := c.1.
Definition result {A} (c : M A) : outcome A := c.2.

(** An open file: its name and what has been written through it. *)
Record file : Type := { f_name : string; f_data : string }.

Definition open_w (path : string) : M file :=
  emit (EOpen path) ;; mret {| f_name := path; f_data := "" |}.
Definition write (fd : file) (s : string) : file :=
  {| f_name := f_name fd; f_data := f_data fd +:+ s |}.
Definition close (fd : file) : M unit := emit (EClose (f_name fd) (f_data fd)).

Definition nl : string := String "010"%char "".
Definition dq : string := String "034"%char "".

(** Modelled from the spec: [sfepy.base.base.get_default], which is not part
    of the script; the default is taken when the option is absent. *)
Definition get_default {A} (arg : option A) (default : A) : A :=
  match arg with
  | None => default
  | Some a => a
  end.

(** Modelled from the spec: [sfepy.base.base.ordered_iteritems], which is not
    part of the script; the items of the dictionary, sorted by key. *)
Definition ordered_iteritems {V} `{Inhabited V} (adict : gmap string V)
  : list (string * V) :=
  (λ key, (key, adict !!! key)) <$> merge_sort String.le (map_to_list adict).*1.

(** ** The script *)

Definition omits : list string := ["linear_elastic_mM.py"].

Definition _get_fig_filename (ebase images_dir : string) : string * string :=
  let fig_base := PyStr.replace "/" "-" (PosixPath.splitext ebase).1 in
  let fig_filename := PosixPath.join images_dir (fig_base +:+ ".png") in
  (fig_base, fig_filename).

Definition _index (a b c : string) : string :=
  ".. _" +:+ a +:+ "-index:" +:+ nl +:+ nl +:+
  b +:+ " examples" +:+ nl +:+
  c +:+ "=========" +:+ nl +:+ nl +:+
  ".. toctree::" +:+ nl +:+
  "    :maxdepth: 2" +:+ nl +:+ nl.

Definition _include (a b c d e f : string) : string :=
  ".. _" +:+ a +:+ ":" +:+ nl +:+ nl +:+
  b +:+ nl +:+
  c +:+ nl +:+ nl +:+
  ".. image:: " +:+ d +:+ nl +:+ nl +:+
  ":download:`source code <" +:+ e +:+ ">`" +:+ nl +:+ nl +:+
  ".. literalinclude:: " +:+ f +:+ nl +:+ nl.

Section Script.

Variable W : World.

Definition _make_sphinx_path (path : string) (relative : bool) : string :=
  if relative then
    let aux := PyStr.replace (data_dir W) "" path in
    let prefix := String.concat "" (replicate (PyStr.count "/" aux) "../") in
    PyStr.drop_last prefix +:+ aux
  else PyStr.replace (data_dir W) "/.." path.

Definition output (msg : string) : M unit := emit (EOutput msg).

(** The path of an example below [examples_dir], as both loops derive it. *)
Definition ebase_of (examples_dir ex_filename : string) : string :=
  PyStr.drop 1 (PyStr.replace examples_dir "" ex_filename).

Definition solve (ex_filename : string) (options : Options)
  : M (option Problem) :=
  emit (ESolve ex_filename options) ;; lift (pde_solve W ex_filename options).

Definition view (v : Viewer) (show is_scalar_bar : bool)
    (fig_filename : string) : M unit :=
  emit (ERender v show is_scalar_bar fig_filename) ;;
  lift (view_call W v show is_scalar_bar fig_filename).

(** The [Struct] of options and the viewer that [generate_images] builds
    before its loop. *)
Definition solver_options (trunk : string) : Options :=
  {| output_filename_trunk := trunk;
     output_format := "vtk";
     save_ebc := false;
     save_regions := false;
     save_field_meshes := false;
     save_regions_as_groups := false;
     solve_not := false |}.

Definition new_viewer (output_dir : string) : Viewer :=
  {| v_filename := "";
     v_output_dir := output_dir;
     v_offscreen := false |}.

(** [view.filename = filename]. *)
Definition set_filename (v : Viewer) (filename : string) : Viewer :=
  {| v_filename := filename;
     v_output_dir := v_output_dir v;
     v_offscreen := v_offscreen v |}.

(** The handler of the [try] around the solve. *)
Definition solve_handler (e : exn) : M (option Problem) :=
  match e with
  | KeyboardInterrupt => raise e
  | OtherError _ => output "***** failed! *****" ;; mret None
  end.

(** The body of the loop of [generate_images]; the one viewer object is
    threaded through the iterations. *)
Definition generate_images_body (images_dir examples_dir : string)
    (prefix output_dir trunk : string) (options : Options)
    (view0 : Viewer) (ex_filename : string) : M Viewer :=
  let base := PosixPath.basename ex_filename in
  if PyStr.In_list base omits then mret view0
  else
    emit (EOutputLevel 0) ;;
    emit (EOutputPrefix prefix) ;;
    let ebase := ebase_of examples_dir ex_filename in
    output ("trying " +:+ dq +:+ ebase +:+ dq +:+ "...") ;;
    problem ← try_except (solve ex_filename options) solve_handler;
    view1 ←
      match problem with
      | Some problem =>
          let fig_filename := (_get_fig_filename ebase images_dir).2 in
          let filename :=
            match ts_conf problem with
            | None => trunk +:+ ".vtk"
            | Some _ => get_output_name problem (ts_suffix_step problem)
            end in
          output ("displaying results from " +:+ dq +:+ filename +:+ dq) ;;
          output ("to " +:+ dq +:+
                  PyStr.drop 1 (PyStr.replace (data_dir W) "" fig_filename)
                  +:+ dq +:+ "...") ;;
          let view1 := set_filename view0 filename in
          view view1 false true fig_filename ;;
          emit EClf ;;
          output "...done" ;;
          emit (ERemoveFiles output_dir) ;;
          mret view1
      | None => mret view0
      end;
    output "...done" ;;
    mret view1.

(** The loop of [generate_images] over the files found, from a given
    state of the viewer. *)
Definition generate_images_loop (images_dir examples_dir : string)
    (view0 : Viewer) (found : list string) : M Viewer :=
  let output_dir := mkdtemp W in
  let trunk := PosixPath.join output_dir "result" in
  for_fold found view0
    (generate_images_body images_dir examples_dir (output_prefix W)
       output_dir trunk (solver_options trunk)).

Definition generate_images (images_dir examples_dir : string) : M unit :=
  let output_dir := mkdtemp W in
  emit (EMkdtemp output_dir) ;;
  emit (EEnsurePath (images_dir +:+ "/")) ;;
  let view0 := new_viewer output_dir in
  emit (ENewViewer view0) ;;
  emit (ELocateFiles "*.py" examples_dir) ;;
  generate_images_loop images_dir examples_dir view0
    (locate_files W "*.py" examples_dir) ;;
  mret tt.

Definition generate_thumbnails (thumbnails_dir images_dir : string)
    (scale : Q) : M unit :=
  emit (EEnsurePath (thumbnails_dir +:+ "/")) ;;
  output "generating thumbnails..." ;;
  let pattern := PosixPath.join images_dir "*.png" in
  emit (EGlob pattern) ;;
  for_each (glob W pattern)
    (λ fig_filename,
       let ebase := PyStr.drop 1 (PyStr.replace (data_dir W) "" fig_filename) in
       output (dq +:+ ebase +:+ dq) ;;
       let base := PosixPath.basename fig_filename in
       let thumb_filename := PosixPath.join thumbnails_dir base in
       emit (EThumbnail fig_filename thumb_filename scale) ;;
       lift (thumbnail W fig_filename thumb_filename scale)) ;;
  output "...done".

(** The first loop of [generate_rst_files]: one step of filling
    [dir_map], and the loop. *)
Definition dir_map_step (examples_dir : string)
    (dir_map : gmap string (list (string * string))) (ex_filename : string)
  : gmap string (list (string * string)) :=
  let base := PosixPath.basename ex_filename in
  if PyStr.In_list base omits then dir_map
  else
    let ebase := ebase_of examples_dir ex_filename in
    let base_dir := PosixPath.dirname ebase in
    let rst_filename :=
      PyStr.replace ".py" ".rst" (PosixPath.basename ex_filename) in
    <[base_dir := default [] (dir_map !! base_dir)
                  ++ [(ex_filename, rst_filename)]]> dir_map.

Definition build_dir_map (examples_dir : string) (found : list string)
  : gmap string (list (string * string)) :=
  foldl (dir_map_step examples_dir) ∅ found.

(** The body of the loop over the examples of one directory. *)
Definition rst_example (rst_dir examples_dir images_dir full_dirname : string)
    (ifd : file) (item : string * string) : M file :=
  let '(ex_filename, rst_filename) := item in
  let full_rst_filename := PosixPath.join full_dirname rst_filename in
  output (dq +:+ PyStr.drop 1 (PyStr.replace rst_dir "" full_rst_filename)
          +:+ dq) ;;
  let rst_filename_ns := PyStr.replace ".rst" "" rst_filename in
  let ebase := ebase_of examples_dir ex_filename in
  let '(fig_base, fig_filename) := _get_fig_filename ebase images_dir in
  let ifd := write ifd ("    " +:+ rst_filename_ns +:+ nl) in
  let rst_fig_filename := _make_sphinx_path fig_filename false in
  let rst_ex_filename := _make_sphinx_path ex_filename false in
  let src_ex_filename := _make_sphinx_path ex_filename true in
  fd ← open_w full_rst_filename;
  let fd := write fd (_include fig_base ebase
                        (PyStr.repeat "=" (String.length ebase))
                        rst_fig_filename src_ex_filename rst_ex_filename) in
  close fd ;;
  mret ifd.

(** The body of the loop over the directories. *)
Definition rst_directory (rst_dir examples_dir images_dir : string)
    (mfd : file) (item : string * list (string * string)) : M file :=
  let '(dirname, filenames) := item in
  let full_dirname := PosixPath.join rst_dir dirname in
  emit (EEnsurePath (full_dirname +:+ "/")) ;;
  ifd ← open_w (PosixPath.join full_dirname "index.rst");
  let ifd := write ifd (_index dirname dirname
                          (PyStr.repeat "=" (String.length dirname))) in
  ifd ← for_fold filenames ifd
          (rst_example rst_dir examples_dir images_dir full_dirname);
  close ifd ;;
  mret (write mfd ("    " +:+ dirname +:+ "/index" +:+ nl)).

Definition generate_rst_files (rst_dir examples_dir images_dir : string)
  : M unit :=
  emit (EEnsurePath (rst_dir +:+ "/")) ;;
  output "generating rst files..." ;;
  emit (ELocateFiles "*.py" examples_dir) ;;
  let dir_map := build_dir_map examples_dir (locate_files W "*.py" examples_dir) in
  mfd ← open_w (PosixPath.join rst_dir "index.rst");
  let mfd := write mfd (_index "sfepy" "SfePy autogenerated gallery"
                          (PyStr.repeat "=" 27)) in
  mfd ← for_fold (ordered_iteritems dir_map) mfd
          (rst_directory rst_dir examples_dir images_dir);
  close mfd ;;
  output "...done".

(** The command line, parsed. *)
Record CliOptions : Type := {
  opt_examples_dir : string;
  opt_images_dir : option string;
  opt_no_images : bool;
  opt_output_filename : string }.

Definition main (options : CliOptions) : M unit :=
  let examples_dir := realpath W (opt_examples_dir options) in
  let gallery_dir :=
    PosixPath.dirname (realpath W (opt_output_filename options)) in
  let images_dir :=
    get_default (opt_images_dir options)
                (PosixPath.join gallery_dir "images") in
  let thumbnails_dir := PosixPath.join images_dir "thumbnails" in
  let rst_dir := PosixPath.join gallery_dir "examples" in
  (if negb (opt_no_images options)
   then generate_images images_dir examples_dir ;;
        generate_thumbnails thumbnails_dir images_dir (3 # 10)
   else mret tt) ;;
  generate_rst_files rst_dir examples_dir images_dir.

End Script.

(** ** Reading a run *)

(** The outcome of a computation whose value is dropped. *)
Definition void {A} (o : outcome A) : outcome unit :=
  match o with
  | Returned _ => Returned tt
  | Raised e => Raised e
  end.

(** What [generate_images] does before its loop. *)
Definition images_setup (W : World) (images_dir examples_dir : string)
  : list event :=
  [EMkdtemp (mkdtemp W);
   EEnsurePath (images_dir +:+ "/");
   ENewViewer (new_viewer (mkdtemp W));
   ELocateFiles "*.py" examples_dir].

(** The options every solve of a run is given. *)
Definition run_options (W : World) : Options :=
  solver_options (PosixPath.join (mkdtemp W) "result").

(** What an iteration of [generate_images] does up to and including the
    call of the solver. *)
Definition attempt (W : World) (examples_dir ex_filename : string)
  : list event :=
  [EOutputLevel 0;
   EOutputPrefix (output_prefix W);
   EOutput ("trying " +:+ dq +:+ ebase_of examples_dir ex_filename
            +:+ dq +:+ "...");
   ESolve ex_filename (run_options W)].

(** An example that the exclusion list lets through. *)
Definition kept (ex_filename : string) : bool :=
  negb (PyStr.In_list (PosixPath.basename ex_filename) omits).

(** The result file a solved problem is displayed from. *)
Definition result_file (W : World) (problem : Problem) : string :=
  match ts_conf problem with
  | None => PosixPath.join (mkdtemp W) "result" +:+ ".vtk"
  | Some _ => get_output_name problem (ts_suffix_step problem)
  end.

(** What an iteration does after a solve that returned [problem], up to and
    including the call of the renderer. *)
Definition display (W : World) (images_dir examples_dir : string)
    (view0 : Viewer) (problem : Problem) (ex_filename : string)
  : list event :=
  let fig_filename :=
    (_get_fig_filename (ebase_of examples_dir ex_filename) images_dir).2 in
  [EOutput ("displaying results from " +:+ dq +:+ result_file W problem
            +:+ dq);
   EOutput ("to " +:+ dq +:+
            PyStr.drop 1 (PyStr.replace (data_dir W) "" fig_filename)
            +:+ dq +:+ "...");
   ERender (set_filename view0 (result_file W problem)) false true
     fig_filename].

(** One iteration of the loop of [generate_images], with the values the
    function has bound before the loop. *)
Definition iteration (W : World) (images_dir examples_dir : string)
  : Viewer → string → M Viewer :=
  generate_images_body W images_dir examples_dir (output_prefix W)
    (mkdtemp W) (PosixPath.join (mkdtemp W) "result") (run_options W).

(** The files an open-for-writing and a close leave behind.  Opening for
    writing empties the file at once.  What is written through a handle
    stays in the buffer of the handle, which a page is taken not to fill,
    and reaches the file when the handle is closed: at the offset of the
    handle, which is the start of the file, over what the file holds by
    then and without cutting it.  So of two handles open on one path at
    once, the one closed last writes over the start of the page of the
    other, and the file keeps the end of a longer earlier page. *)
Definition overlay (data old : string) : string :=
  data +:+ PyStr.drop (String.length data) old.

Definition fs_event (fs : gmap string string) (e : event)
  : gmap string string :=
  match e with
  | EOpen path => <[path := ""]> fs
  | EClose path data => <[path := overlay data (default "" (fs !! path))]> fs
  | _ => fs
  end.

Definition fs_after (tr : list event) (fs : gmap string string)
  : gmap string string :=
  foldl fs_event fs tr.


(** The paths a trace opens for writing, in the order it opens them, and
    the number of times it opens [path]. *)
Definition opened (tr : list event) : list string :=
  omap (λ e, match e with
             | EOpen path => Some path
             | _ => None
             end) tr.

Definition times_opened (path : string) (tr : list event) : nat :=
  length (filter (λ q, q = path) (opened tr)).



(** *** The pages of [generate_rst_files] *)

(** Strings written one after the other. *)
Definition written (l : list string) : string := foldr String.append "" l.

(** The name of the content page of an example, as the grouping loop
    derives it, and the entry of [dir_map] for the example. *)
Definition rst_name (ex_filename : string) : string :=
  PyStr.replace ".py" ".rst" (PosixPath.basename ex_filename).

Definition dir_map_item (ex_filename : string) : string * string :=
  (ex_filename, rst_name ex_filename).

(** The examples found that are kept and grouped under [base_dir], in the
    order they were found. *)
Definition members (examples_dir : string) (found : list string)
    (base_dir : string) : list string :=
  filter (λ ex, kept ex = true ∧
                PosixPath.dirname (ebase_of examples_dir ex) = base_dir)
         found.

(** The content page of an example. *)
Definition content_page (W : World) (examples_dir images_dir : string)
    (ex_filename : string) : string :=
  let ebase := ebase_of examples_dir ex_filename in
  _include (_get_fig_filename ebase images_dir).1 ebase
    (PyStr.repeat "=" (String.length ebase))
    (_make_sphinx_path W (_get_fig_filename ebase images_dir).2 false)
    (_make_sphinx_path W ex_filename true)
    (_make_sphinx_path W ex_filename false).

(** The lines of the two kinds of index, and the index pages. *)
Definition example_line (item : string * string) : string :=
  "    " +:+ PyStr.replace ".rst" "" item.2 +:+ nl.

Definition directory_line (dirname : string) : string :=
  "    " +:+ dirname +:+ "/index" +:+ nl.

Definition sub_index_page (dirname : string)
    (filenames : list (string * string)) : string :=
  _index dirname dirname (PyStr.repeat "=" (String.length dirname)) +:+
  written (example_line <$> filenames).

Definition main_index_page (dirnames : list string) : string :=
  _index "sfepy" "SfePy autogenerated gallery" (PyStr.repeat "=" 27) +:+
  written (directory_line <$> dirnames).

(** The events of the loop body for one example, for one directory, and of
    the whole function. *)
Definition example_events (W : World)
    (rst_dir examples_dir images_dir full_dirname : string)
    (item : string * string) : list event :=
  let full_rst_filename := PosixPath.join full_dirname item.2 in
  [EOutput (dq +:+ PyStr.drop 1 (PyStr.replace rst_dir "" full_rst_filename)
            +:+ dq);
   EOpen full_rst_filename;
   EClose full_rst_filename (content_page W examples_dir images_dir item.1)].

Definition directory_events (W : World)
    (rst_dir examples_dir images_dir : string)
    (item : string * list (string * string)) : list event :=
  let full_dirname := PosixPath.join rst_dir item.1 in
  [EEnsurePath (full_dirname +:+ "/");
   EOpen (PosixPath.join full_dirname "index.rst")] ++
  mjoin (example_events W rst_dir examples_dir images_dir full_dirname
            <$> item.2) ++
  [EClose (PosixPath.join full_dirname "index.rst")
     (sub_index_page item.1 item.2)].

Definition rst_groups (W : World) (examples_dir : string)
  : list (string * list (string * string)) :=
  ordered_iteritems
    (build_dir_map examples_dir (locate_files W "*.py" examples_dir)).

Definition rst_events (W : World) (rst_dir examples_dir images_dir : string)
  : list event :=
  [EEnsurePath (rst_dir +:+ "/");
   EOutput "generating rst files...";
   ELocateFiles "*.py" examples_dir;
   EOpen (PosixPath.join rst_dir "index.rst")] ++
  mjoin (directory_events W rst_dir examples_dir images_dir
            <$> rst_groups W examples_dir) ++
  [EClose (PosixPath.join rst_dir "index.rst")
     (main_index_page (rst_groups W examples_dir).*1);
   EOutput "...done"].

(** *** The calls of a run, by kind *)

(** The calls of the solver, of the thumbnailer and of the renderer in a
    trace, in the order they were made. *)
Definition solve_calls (tr : list event) : list (string * Options) :=
  omap (λ e, match e with
             | ESolve ex_filename options => Some (ex_filename, options)
             | _ => None
             end) tr.

Definition thumbnail_calls (tr : list event) : list (string * string * Q) :=
  omap (λ e, match e with
             | EThumbnail src dst scale => Some (src, dst, scale)
             | _ => None
             end) tr.

Definition render_targets (tr : list event) : list string :=
  omap (λ e, match e with
             | ERender _ _ _ fig_filename => Some fig_filename
             | _ => None
             end) tr.

(** The pages a trace closes, in closing order. *)
Definition pages_closed (tr : list event) : list (string * string) :=
  omap (λ e, match e with
             | EClose path data => Some (path, data)
             | _ => None
             end) tr.

(** What the loop of [generate_thumbnails] does for one image, up to and
    including the call of the thumbnailer. *)
Definition thumbnail_events (W : World) (thumbnails_dir : string) (scale : Q)
    (fig_filename : string) : list event :=
  [EOutput (dq +:+ PyStr.drop 1 (PyStr.replace (data_dir W) "" fig_filename)
            +:+ dq);
   EThumbnail fig_filename
     (PosixPath.join thumbnails_dir (PosixPath.basename fig_filename)) scale].

(** What [generate_thumbnails] does before its loop. *)
Definition thumbnails_setup (thumbnails_dir images_dir : string)
  : list event :=
  [EEnsurePath (thumbnails_dir +:+ "/");
   EOutput "generating thumbnails...";
   EGlob (PosixPath.join images_dir "*.png")].

(** ** The path mapper in the words of the specification *)

Module Spec.

(** Every directory separator replaced by the join character. *)
Fixpoint flatten (s : string) : string :=
  match s with
  | "" => ""
  | String a t =>
      String (if Ascii.eqb a "/" then "-"%char else a) (flatten t)
  end.

(** Strip the extension, flatten, append the image extension, join under
    the images directory. *)
Definition image_path_for (example_relative_path images_dir : string)
  : string :=
  PosixPath.join images_dir
    (flatten (PosixPath.splitext example_relative_path).1 +:+ ".png").

(** [sub] occurs somewhere in [s]. *)
Fixpoint occurs (sub s : string) : bool :=
  String.prefix sub s ||
  match s with
  | "" => false
  | String _ t => occurs sub t
  end.

(** The number of directory separators of a path. *)
Fixpoint separators (s : string) : nat :=
  match s with
  | "" => O
  | String a t => (if Ascii.eqb a "/" then 1 else 0)%nat + separators t
  end.

(** [n] parent-directory segments, separated. *)
Definition parents (n : nat) : string :=
  String.concat "/" (replicate n "..").

End Spec.

(** ** Sample runs *)

Module Sample.

Definition steady : Problem :=
  {| ts_conf := None; ts_suffix_step := ""; get_output_name := λ s, s |}.

(** Three examples and an omitted one; the solve of [ex2.py] fails. *)
Definition W : World :=
  {| data_dir := "/home/sfepy";
     output_prefix := "sfepy:";
     mkdtemp := "/tmp/tmpX";
     locate_files := λ _ _,
       ["/home/sfepy/examples/a/ex1.py";
        "/home/sfepy/examples/a/ex2.py";
        "/home/sfepy/examples/b/ex3.py";
        "/home/sfepy/examples/b/linear_elastic_mM.py"];
     glob := λ _, [];
     realpath := λ p, "/home/sfepy/" +:+ p;
     pde_solve := λ ex _,
       if String.eqb ex "/home/sfepy/examples/a/ex2.py"
       then Raised (OtherError "ValueError")
       else Returned (Some steady);
     view_call := λ _ _ _ _, Returned tt;
     thumbnail := λ _ _ _, Returned tt |}.

(** The same corpus with the user interrupting the second solve. *)
Definition W_interrupt : World :=
  {| data_dir := data_dir W;
     output_prefix := output_prefix W;
     mkdtemp := mkdtemp W;
     locate_files := locate_files W;
     glob := glob W;
     realpath := realpath W;
     pde_solve := λ ex _,
       if String.eqb ex "/home/sfepy/examples/a/ex2.py"
       then Raised KeyboardInterrupt
       else Returned (Some steady);
     view_call := view_call W;
     thumbnail := thumbnail W |}.

(** An examples root whose name comes again further down the tree. *)
Definition W_nested : World :=
  {| data_dir := "/srv";
     output_prefix := "";
     mkdtemp := "/tmp/tmpX";
     locate_files := λ _ _, ["/e/a/e/x.py"];
     glob := λ _, [];
     realpath := λ p, p;
     pde_solve := λ _ _, Returned None;
     view_call := λ _ _ _ _, Returned tt;
     thumbnail := λ _ _ _, Returned tt |}.

(** An example whose name holds the page extension. *)
Definition W_rst : World :=
  {| data_dir := "/srv";
     output_prefix := "";
     mkdtemp := "/tmp/tmpX";
     locate_files := λ _ _, ["/e/d/a.rst.py"];
     glob := λ _, [];
     realpath := λ p, p;
     pde_solve := λ _ _, Returned None;
     view_call := λ _ _ _ _, Returned tt;
     thumbnail := λ _ _ _, Returned tt |}.

(** Two images to scale down; and the same with the second failing. *)
Definition W_thumbs : World :=
  {| data_dir := "/home/sfepy";
     output_prefix := "sfepy:";
     mkdtemp := "/tmp/tmpX";
     locate_files := λ _ _, [];
     glob := λ _, ["/home/sfepy/doc/images/a-ex1.png";
                   "/home/sfepy/doc/images/b-ex3.png"];
     realpath := λ p, "/home/sfepy/" +:+ p;
     pde_solve := λ _ _, Returned None;
     view_call := λ _ _ _ _, Returned tt;
     thumbnail := λ _ _ _, Returned tt |}.

Definition W_thumbs_fail : World :=
  {| data_dir := data_dir W_thumbs;
     output_prefix := output_prefix W_thumbs;
     mkdtemp := mkdtemp W_thumbs;
     locate_files := locate_files W_thumbs;
     glob := λ _, ["/home/sfepy/doc/images/a-ex1.png";
                   "/home/sfepy/doc/images/b-ex3.png";
                   "/home/sfepy/doc/images/c-ex4.png"];
     realpath := realpath W_thumbs;
     pde_solve := pde_solve W_thumbs;
     view_call := view_call W_thumbs;
     thumbnail := λ src _ _,
       if String.eqb src "/home/sfepy/doc/images/b-ex3.png"
       then Raised (OtherError "IOError")
       else Returned tt |}.

(** The sample corpus with a renderer that fails on the second image, and
    a time-stepped problem for the first example. *)
Definition stepped : Problem :=
  {| ts_conf := Some "ts";
     ts_suffix_step := "010";
     get_output_name := λ suffix, "/tmp/tmpX/result." +:+ suffix +:+ ".vtk" |}.

Definition W_render_fail : World :=
  {| data_dir := data_dir W;
     output_prefix := output_prefix W;
     mkdtemp := mkdtemp W;
     locate_files := locate_files W;
     glob := glob W;
     realpath := realpath W;
     pde_solve := λ ex _,
       if String.eqb ex "/home/sfepy/examples/a/ex1.py"
       then Returned (Some stepped)
       else Returned (Some steady);
     view_call := λ _ _ _ fig,
       if String.eqb fig "/home/sfepy/doc/images/a-ex2.png"
       then Raised (OtherError "RuntimeError")
       else Returned tt;
     thumbnail := thumbnail W |}.

(** A corpus with an example right below the examples directory. *)
Definition W_top : World :=
  {| data_dir := data_dir W;
     output_prefix := output_prefix W;
     mkdtemp := mkdtemp W;
     locate_files := λ _ _,
       ["/home/sfepy/examples/top.py"; "/home/sfepy/examples/a/ex1.py"];
     glob := glob W;
     realpath := realpath W;
     pde_solve := pde_solve W;
     view_call := view_call W;
     thumbnail := thumbnail W |}.

Definition examples_dir : string := "/home/sfepy/examples".
Definition images_dir : string := "/home/sfepy/doc/images".
Definition rst_dir : string := "/home/sfepy/doc/examples".

End Sample.

(** ** The primitives on concrete strings *)

Example replace_every_occurrence :
  PyStr.replace "/e" "" "/e/a/e/x.py" = "/a/x.py" ∧
  PyStr.replace "aa" "b" "aaaaa" = "bba" ∧
  PyStr.replace "" "-" "abc" = "-a-b-c-" ∧
  PyStr.replace ".py" ".rst" "ex1.py" = "ex1.rst".
Proof. repeat split; reflexivity. Qed.

Example splitext_leading_dots :
  PosixPath.splitext "a/b.c/x.py" = ("a/b.c/x", ".py") ∧
  PosixPath.splitext "a/b.c/..py" = ("a/b.c/..py", "") ∧
  PosixPath.splitext "a.b/c" = ("a.b/c", "").
Proof. repeat split; reflexivity. Qed.

Example dirname_basename_join :
  PosixPath.dirname "a/ex1.py" = "a" ∧
  PosixPath.dirname "ex1.py" = "" ∧
  PosixPath.dirname "a//ex1.py" = "a" ∧
  PosixPath.basename "/a/b/ex1.py" = "ex1.py" ∧
  PosixPath.join "/a" "b" = "/a/b" ∧
  PosixPath.join "/a/" "b" = "/a/b" ∧
  PosixPath.join "" "b" = "b" ∧
  PosixPath.join "/a" "/b" = "/b".
Proof. repeat split; reflexivity. Qed.

Example fig_filename_of_the_scenario :
  _get_fig_filename "a/ex1.py" "/home/sfepy/doc/images" =
  ("a-ex1", "/home/sfepy/doc/images/a-ex1.png").
Proof. reflexivity. Qed.

Example sphinx_paths :
  _make_sphinx_path Sample.W "/home/sfepy/examples/a/ex1.py" false =
  "/../examples/a/ex1.py" ∧
  _make_sphinx_path Sample.W "/home/sfepy/examples/a/ex1.py" true =
  "../../../examples/a/ex1.py".
Proof. split; reflexivity. Qed.

(** ** Facts about the string primitives *)

Section StringFacts.

Lemma str_app_cons a s t : String a s +:+ t = String a (s +:+ t).
Proof. reflexivity. Qed.

Lemma str_app_nil_r s : s +:+ "" = s.
Proof. induction s as [|a s IH]; [done|]. by rewrite str_app_cons, IH. Qed.

Lemma str_app_assoc s t u : (s +:+ t) +:+ u = s +:+ (t +:+ u).
Proof. induction s as [|a s IH]; [done|]. by rewrite !str_app_cons, IH. Qed.

Lemma str_app_length s t :
  String.length (s +:+ t) = (String.length s + String.length t)%nat.
Proof. induction s as [|a s IH]; [done|]. rewrite str_app_cons. simpl. lia. Qed.

Lemma str_app_inv_tail s1 s2 t : s1 +:+ t = s2 +:+ t → s1 = s2.
Proof.
  revert s2. induction s1 as [|a s1 IH]; intros [|b s2] H.
  - done.
  - apply (f_equal String.length) in H.
    rewrite !str_app_length in H. simpl in H. lia.
  - apply (f_equal String.length) in H.
    rewrite !str_app_length in H. simpl in H. lia.
  - rewrite !str_app_cons in H. injection H as -> H. f_equal. by apply IH.
Qed.

Lemma str_take_drop n s : PyStr.take n s +:+ PyStr.drop n s = s.
Proof.
  revert s. induction n as [|n IH]; intros [|a s]; try done.
  simpl. by rewrite str_app_cons, IH.
Qed.

Lemma mem_app c s t : PyStr.mem c (s +:+ t) = PyStr.mem c s || PyStr.mem c t.
Proof.
  induction s as [|a s IH]; [done|].
  rewrite str_app_cons. simpl. rewrite IH. by rewrite orb_assoc.
Qed.

(** Replacing a one-character pattern by one character is a map. *)
Lemma prefix_char c a t :
  String.prefix (String c "") (String a t) = Ascii.eqb a c.
Proof.
  simpl. destruct (ascii_dec c a) as [->|Hne].
  - destruct t; by rewrite Ascii.eqb_refl.
  - symmetry. apply Ascii.eqb_neq. congruence.
Qed.

Lemma replace_sep_flatten s : PyStr.replace "/" "-" s = Spec.flatten s.
Proof.
  unfold PyStr.replace.
  induction s as [|a s IH]; [done|].
  cbn [PyStr.replace_go Spec.flatten].
  rewrite prefix_char. cbn [String.length Nat.pred].
  destruct (Ascii.eqb a "/"); by rewrite IH.
Qed.

Lemma flatten_no_sep s : PyStr.mem "/" (Spec.flatten s) = false.
Proof.
  induction s as [|a s IH]; [done|]. simpl. rewrite IH, orb_false_r.
  destruct (Ascii.eqb a "/") eqn:E; [done|exact E].
Qed.

Lemma flatten_inj s1 s2 :
  PyStr.mem "-" s1 = false → PyStr.mem "-" s2 = false →
  Spec.flatten s1 = Spec.flatten s2 → s1 = s2.
Proof.
  revert s2. induction s1 as [|a s1 IH]; intros [|b s2]; simpl; try done.
  intros [Ha H1]%orb_false_elim [Hb H2]%orb_false_elim H.
  injection H as Hab H. f_equal; [|by apply IH].
  destruct (Ascii.eqb a "/") eqn:Ea, (Ascii.eqb b "/") eqn:Eb.
  - apply Ascii.eqb_eq in Ea, Eb. congruence.
  - subst b. by rewrite Ascii.eqb_refl in Hb.
  - subst a. by rewrite Ascii.eqb_refl in Ha.
  - done.
Qed.

(** [rfind] on a concatenation. *)
Lemma rfind_go_app c s t i last :
  PyStr.rfind_go c (s +:+ t) i last =
  PyStr.rfind_go c t (i + Z.of_nat (String.length s)) (PyStr.rfind_go c s i last).
Proof.
  revert i last. induction s as [|a s IH]; intros i last.
  - simpl. f_equal. lia.
  - rewrite str_app_cons. simpl PyStr.rfind_go. rewrite IH. f_equal.
    cbn [String.length]. lia.
Qed.

Lemma rfind_go_absent c s i last :
  PyStr.mem c s = false → PyStr.rfind_go c s i last = last.
Proof.
  revert i last. induction s as [|a s IH]; intros i last; [done|].
  simpl. intros [-> H]%orb_false_elim. by apply IH.
Qed.

Lemma drop_app_length s t : PyStr.drop (String.length s) (s +:+ t) = t.
Proof. induction s as [|a s IH]; [by destruct t|]. by rewrite str_app_cons. Qed.

(** The base name of a path whose last component has no separator. *)
Lemma basename_flat name :
  PyStr.mem "/" name = false → PosixPath.basename name = name.
Proof.
  intros H. unfold PosixPath.basename, PyStr.rfind.
  by rewrite rfind_go_absent.
Qed.

Lemma basename_app dir name :
  PyStr.mem "/" name = false →
  PosixPath.basename (dir +:+ "/" +:+ name) = name.
Proof.
  intros H. unfold PosixPath.basename, PyStr.rfind.
  rewrite rfind_go_app. change ("/" +:+ name) with (String "/" name).
  cbn [PyStr.rfind_go]. change (Ascii.eqb "/" PosixPath.sep) with true.
  cbv iota. rewrite (rfind_go_absent _ _ _ _ H).
  replace (Z.to_nat (0 + Z.of_nat (String.length dir) + 1))
    with (String.length (dir +:+ "/")) by (rewrite str_app_length; simpl; lia).
  rewrite <- (drop_app_length (dir +:+ "/") name) at 2.
  by rewrite str_app_assoc.
Qed.

Lemma endswith_app_sep dir :
  PyStr.endswith "/" dir = true → ∃ d, dir = d +:+ "/".
Proof.
  induction dir as [|a dir IH]; [done|].
  simpl. destruct dir as [|b dir].
  - intros ->%Ascii.eqb_eq. by exists "".
  - intros [d Hd]%IH. exists (String a d). by rewrite str_app_cons, <- Hd.
Qed.

Lemma startswith_sep_mem name :
  PyStr.mem "/" name = false → PyStr.startswith "/" name = false.
Proof.
  destruct name as [|a name]; [done|].
  unfold PyStr.startswith. rewrite prefix_char. simpl.
  by intros [-> _]%orb_false_elim.
Qed.

(** Joining a name without separator under a directory: the name becomes
    the last component, right below the directory. *)
Lemma join_flat dir name :
  PyStr.mem "/" name = false →
  PosixPath.join dir name = name ∧ dir = "" ∨
  ∃ d, PosixPath.join dir name = d +:+ "/" +:+ name ∧
       (dir = d ∨ dir = d +:+ "/").
Proof.
  intros H. unfold PosixPath.join. rewrite (startswith_sep_mem _ H).
  destruct (String.eqb_spec dir "") as [->|Hne]; [by left|]. right.
  simpl. destruct (PyStr.endswith PosixPath.sep dir) eqn:E.
  - apply endswith_app_sep in E as [d ->]. exists d.
    split; [by rewrite str_app_assoc | by right].
  - exists dir. by split; [|left].
Qed.

Lemma basename_join dir name :
  PyStr.mem "/" name = false →
  PosixPath.basename (PosixPath.join dir name) = name.
Proof.
  intros H. destruct (join_flat dir name H) as [[-> _]|[d [-> _]]].
  - by apply basename_flat.
  - by apply basename_app.
Qed.

Lemma join_inj dir n1 n2 :
  PyStr.mem "/" n1 = false → PyStr.mem "/" n2 = false →
  PosixPath.join dir n1 = PosixPath.join dir n2 → n1 = n2.
Proof.
  intros H1 H2 H.
  rewrite <- (basename_join dir n1 H1), <- (basename_join dir n2 H2).
  by rewrite H.
Qed.

(** [replace] where the pattern does not occur, and where it leads. *)
Lemma occurs_cons sub a t :
  Spec.occurs sub (String a t) = false →
  String.prefix sub (String a t) = false ∧ Spec.occurs sub t = false.
Proof. cbn [Spec.occurs]. by intros [??]%orb_false_elim. Qed.

Lemma replace_go_absent old new s :
  Spec.occurs old s = false → PyStr.replace_go old new s 0 = s.
Proof.
  induction s as [|a s IH]; [done|].
  intros [Hp Ho]%occurs_cons. cbn [PyStr.replace_go].
  rewrite Hp. by rewrite IH.
Qed.

Lemma replace_absent old new s :
  Spec.occurs old s = false → PyStr.replace old new s = s.
Proof.
  intros H. destruct old as [|c old].
  - by destruct s.
  - by apply replace_go_absent.
Qed.

Lemma prefix_app s t : String.prefix s (s +:+ t) = true.
Proof.
  induction s as [|a s IH]; [by destruct t|].
  rewrite str_app_cons. simpl. by destruct (ascii_dec a a).
Qed.

Lemma replace_go_skip old new u t :
  PyStr.replace_go old new (u +:+ t) (String.length u) =
  PyStr.replace_go old new t 0.
Proof.
  induction u as [|a u IH]; [done|].
  by rewrite str_app_cons.
Qed.

Lemma replace_prefix old new t :
  old ≠ "" →
  PyStr.replace old new (old +:+ t) = new +:+ PyStr.replace old new t.
Proof.
  destruct old as [|c old]; [done|]. intros _. unfold PyStr.replace.
  rewrite str_app_cons. cbn [PyStr.replace_go].
  rewrite <- (str_app_cons c old t), prefix_app.
  cbn [String.length Nat.pred]. by rewrite replace_go_skip.
Qed.

Lemma splitext_app p : (PosixPath.splitext p).1 +:+ (PosixPath.splitext p).2 = p.
Proof.
  unfold PosixPath.splitext.
  destruct (_ && _); simpl; [apply str_take_drop | apply str_app_nil_r].
Qed.

End StringFacts.

(** ** Facts about computations *)

Lemma trace_pair {A : Type} (tr : list event) (o : outcome A) :
  trace (tr, o) = tr.
Proof. reflexivity. Qed.

Lemma result_pair {A : Type} (tr : list event) (o : outcome A) :
  result (tr, o) = o.
Proof. reflexivity. Qed.

Section MonadFacts.

Context {A B : Type}.

Lemma trace_bind_returned (c : M A) (f : A → M B) a :
  result c = Returned a → trace (c ≫= f) = trace c ++ trace (f a).
Proof. unfold trace, result, mbind, M_bind. by intros ->. Qed.

Lemma result_bind_returned (c : M A) (f : A → M B) a :
  result c = Returned a → result (c ≫= f) = result (f a).
Proof. unfold trace, result, mbind, M_bind. by intros ->. Qed.

Lemma trace_bind_raised (c : M A) (f : A → M B) e :
  result c = Raised e → trace (c ≫= f) = trace c.
Proof. unfold trace, result, mbind, M_bind. by intros ->. Qed.

Lemma result_bind_raised (c : M A) (f : A → M B) e :
  result c = Raised e → result (c ≫= f) = Raised e.
Proof. unfold trace, result, mbind, M_bind. by intros ->. Qed.

Lemma bind_emit (e : event) (k : M B) :
  (emit e ;; k) = (e :: trace k, result k).
Proof. reflexivity. Qed.

Lemma bind_ret (a : A) (f : A → M B) :
  (mret a ≫= f) = (trace (f a), result (f a)).
Proof. reflexivity. Qed.

Lemma M_eta (c : M A) : c = (trace c, result c).
Proof. by destruct c. Qed.

End MonadFacts.

Section LoopFacts.

Context {A S : Type}.
Implicit Types (body : S → A → M S) (l : list A).

Lemma for_fold_cons_returned body x l s s' :
  result (body s x) = Returned s' →
  for_fold (x :: l) s body =
  (trace (body s x) ++ trace (for_fold l s' body),
   result (for_fold l s' body)).
Proof. intros H. simpl. unfold mbind, M_bind. unfold result in H. by rewrite H. Qed.

Lemma for_fold_cons_raised body x l s e :
  result (body s x) = Raised e →
  for_fold (x :: l) s body = (trace (body s x), Raised e).
Proof. intros H. simpl. unfold mbind, M_bind. unfold result in H. by rewrite H. Qed.

Lemma for_fold_app_returned body l1 l2 s s' :
  result (for_fold l1 s body) = Returned s' →
  for_fold (l1 ++ l2) s body =
  (trace (for_fold l1 s body) ++ trace (for_fold l2 s' body),
   result (for_fold l2 s' body)).
Proof.
  revert s. induction l1 as [|x l1 IH]; intros s H.
  - simpl in *. injection H as ->. by destruct (for_fold l2 s' body).
  - destruct (result (body s x)) as [s1|e] eqn:Hx.
    + rewrite (for_fold_cons_returned _ _ _ _ _ Hx) in H. simpl in H.
      rewrite <- app_comm_cons.
      rewrite !(for_fold_cons_returned _ _ _ _ _ Hx).
      rewrite (IH _ H). unfold trace, result. simpl.
      by rewrite (assoc_L (++)).
    + rewrite (for_fold_cons_raised _ _ _ _ _ Hx) in H. done.
Qed.

End LoopFacts.

(** ** The iterations of [generate_images], case by case *)

Section ImagesBody.

Variable W : World.
Variables images_dir examples_dir : string.

Local Abbreviation body := (iteration W images_dir examples_dir).

Lemma body_omitted view0 ex :
  kept ex = false → body view0 ex = mret view0.
Proof.
  unfold kept, iteration, generate_images_body.
  intros H%negb_false_iff. by rewrite H.
Qed.

Lemma body_failed view0 ex what :
  kept ex = true →
  pde_solve W ex (run_options W) = Raised (OtherError what) →
  body view0 ex =
  (attempt W examples_dir ex ++
   [EOutput "***** failed! *****"; EOutput "...done"], Returned view0).
Proof.
  unfold kept, iteration, generate_images_body.
  intros H%negb_true_iff Hs. rewrite H.
  unfold solve, lift. by rewrite Hs.
Qed.

Lemma body_interrupted view0 ex :
  kept ex = true →
  pde_solve W ex (run_options W) = Raised KeyboardInterrupt →
  body view0 ex = (attempt W examples_dir ex, Raised KeyboardInterrupt).
Proof.
  unfold kept, iteration, generate_images_body.
  intros H%negb_true_iff Hs. rewrite H.
  unfold solve, lift. by rewrite Hs.
Qed.

Lemma body_no_problem view0 ex :
  kept ex = true →
  pde_solve W ex (run_options W) = Returned None →
  body view0 ex =
  (attempt W examples_dir ex ++ [EOutput "...done"], Returned view0).
Proof.
  unfold kept, iteration, generate_images_body.
  intros H%negb_true_iff Hs. rewrite H.
  unfold solve, lift. by rewrite Hs.
Qed.

Lemma body_displayed view0 ex problem :
  kept ex = true →
  pde_solve W ex (run_options W) = Returned (Some problem) →
  view_call W (set_filename view0 (result_file W problem)) false true
    (_get_fig_filename (ebase_of examples_dir ex) images_dir).2
  = Returned tt →
  body view0 ex =
  (attempt W examples_dir ex ++
   display W images_dir examples_dir view0 problem ex ++
   [EClf; EOutput "...done"; ERemoveFiles (mkdtemp W); EOutput "...done"],
   Returned (set_filename view0 (result_file W problem))).
Proof.
  unfold kept, iteration, generate_images_body.
  intros H%negb_true_iff Hs Hv. rewrite H.
  unfold solve, view, lift. rewrite Hs. unfold result_file in Hv.
  unfold try_except, mbind, M_bind, emit. simpl in Hv |- *.
  by rewrite Hv.
Qed.

Lemma body_render_raised view0 ex problem e :
  kept ex = true →
  pde_solve W ex (run_options W) = Returned (Some problem) →
  view_call W (set_filename view0 (result_file W problem)) false true
    (_get_fig_filename (ebase_of examples_dir ex) images_dir).2
  = Raised e →
  body view0 ex =
  (attempt W examples_dir ex ++
   display W images_dir examples_dir view0 problem ex, Raised e).
Proof.
  unfold kept, iteration, generate_images_body.
  intros H%negb_true_iff Hs Hv. rewrite H.
  unfold solve, view, lift. rewrite Hs. unfold result_file in Hv.
  unfold try_except, mbind, M_bind, emit. simpl in Hv |- *.
  by rewrite Hv.
Qed.

Lemma loop_unfold view0 found :
  generate_images_loop W images_dir examples_dir view0 found =
  for_fold found view0 body.
Proof. reflexivity. Qed.

Lemma generate_images_run :
  generate_images W images_dir examples_dir =
  (images_setup W images_dir examples_dir ++
   trace (generate_images_loop W images_dir examples_dir
            (new_viewer (mkdtemp W)) (locate_files W "*.py" examples_dir)),
   void (result (generate_images_loop W images_dir examples_dir
                   (new_viewer (mkdtemp W))
                   (locate_files W "*.py" examples_dir)))).
Proof.
  unfold generate_images. cbv zeta.
  generalize (generate_images_loop W images_dir examples_dir
                (new_viewer (mkdtemp W)) (locate_files W "*.py" examples_dir)).
  intros [t [v|e]]; unfold mbind, M_bind, emit, images_setup; simpl;
    by rewrite ?app_nil_r.
Qed.

Lemma fig_filename_spec ebase :
  (_get_fig_filename ebase images_dir).2 = Spec.image_path_for ebase images_dir.
Proof.
  unfold _get_fig_filename, Spec.image_path_for. cbv zeta. cbn [snd].
  by rewrite replace_sep_flatten.
Qed.

Lemma In_list_elem_of x l : PyStr.In_list x l = true ↔ x ∈ l.
Proof.
  unfold PyStr.In_list. rewrite existsb_exists. split.
  - intros [y [Hy ->%String.eqb_eq]]. by apply list_elem_of_In.
  - intros H%list_elem_of_In. exists x. by rewrite String.eqb_refl.
Qed.

Lemma kept_false_iff ex : kept ex = false ↔ PosixPath.basename ex ∈ omits.
Proof. unfold kept. by rewrite negb_false_iff, In_list_elem_of. Qed.

End ImagesBody.

(** Splits on what an iteration meets: an omitted file, a solve that
    returns a problem and a render that returns or raises, a solve that
    returns none, the interrupt, another error. *)
Ltac iteration_cases W images_dir examples_dir view0 ex :=
  let Hk := fresh "Hk" in
  let Hs := fresh "Hs" in
  let Hv := fresh "Hv" in
  let problem := fresh "problem" in
  destruct (kept ex) eqn:Hk;
  [ destruct (pde_solve W ex (run_options W)) as [[problem|]|[|?]] eqn:Hs;
    [ destruct (view_call W (set_filename view0 (result_file W problem))
                  false true
                  (_get_fig_filename (ebase_of examples_dir ex) images_dir).2)
        as [[]|?] eqn:Hv;
      [ rewrite ?(body_displayed W images_dir examples_dir view0 ex problem Hk Hs Hv) in *
      | rewrite ?(body_render_raised W images_dir examples_dir view0 ex problem _ Hk Hs Hv) in * ]
    | rewrite ?(body_no_problem W images_dir examples_dir view0 ex Hk Hs) in *
    | rewrite ?(body_interrupted W images_dir examples_dir view0 ex Hk Hs) in *
    | rewrite ?(body_failed W images_dir examples_dir view0 ex _ Hk Hs) in * ]
  | rewrite ?(body_omitted W images_dir examples_dir view0 ex Hk) in * ].

(** Finds an event in a list that computes. *)
Ltac find_event :=
  repeat first [apply list_elem_of_here | apply list_elem_of_further].

(** Membership of an event in a list written out. *)
Ltac event_in :=
  unfold trace, attempt, display, images_setup in *; cbn [fst] in *;
  rewrite ?elem_of_app, ?elem_of_cons, ?elem_of_nil in *;
  intuition discriminate.

(** ** The image generator *)

(** C2.  In [generate_images], when the solve of an example raises, the
    run is as follows.  For any error but the user interrupt the handler
    reports the failure notice, nothing is rendered for that example, and
    the loop goes on with the files that follow.  The user interrupt leaves
    the function at once: the call of the solver is the last event of the
    run, which ends raising [KeyboardInterrupt]. *)
Theorem solve_failure_is_isolated
    (W : World) (images_dir examples_dir : string)
    (pre post : list string) (ex : string) (e : exn) (v : Viewer) :
  locate_files W "*.py" examples_dir = pre ++ ex :: post →
  result (generate_images_loop W images_dir examples_dir
            (new_viewer (mkdtemp W)) pre) = Returned v →
  kept ex = true →
  pde_solve W ex (run_options W) = Raised e →
  let before :=
    images_setup W images_dir examples_dir ++
    trace (generate_images_loop W images_dir examples_dir
             (new_viewer (mkdtemp W)) pre) ++
    attempt W examples_dir ex in
  let rest := generate_images_loop W images_dir examples_dir v post in
  generate_images W images_dir examples_dir =
  match e with
  | KeyboardInterrupt => (before, Raised KeyboardInterrupt)
  | OtherError _ =>
      (before ++ [EOutput "***** failed! *****"; EOutput "...done"] ++
       trace rest, void (result rest))
  end.
Proof.
  intros Hfound Hpre Hk Hs before rest. subst before rest.
  rewrite generate_images_run, Hfound.
  rewrite !loop_unfold in *.
  rewrite (for_fold_app_returned _ _ _ _ _ Hpre).
  destruct e as [|what].
  - rewrite (for_fold_cons_raised _ ex post v KeyboardInterrupt)
      by (by rewrite (body_interrupted W images_dir examples_dir v ex Hk Hs)).
    by rewrite (body_interrupted W images_dir examples_dir v ex Hk Hs).
  - rewrite (for_fold_cons_returned _ ex post v v)
      by (by rewrite (body_failed W images_dir examples_dir v ex what Hk Hs)).
    rewrite (body_failed W images_dir examples_dir v ex what Hk Hs).
    unfold trace, result. simpl fst. simpl snd.
    by rewrite <- !(assoc_L (++)).
Qed.

Lemma solve_failure_is_isolated_witness :
  generate_images Sample.W Sample.images_dir Sample.examples_dir =
  let v := set_filename (new_viewer "/tmp/tmpX") "/tmp/tmpX/result.vtk" in
  let rest :=
    generate_images_loop Sample.W Sample.images_dir Sample.examples_dir v
      ["/home/sfepy/examples/b/ex3.py";
       "/home/sfepy/examples/b/linear_elastic_mM.py"] in
  ((images_setup Sample.W Sample.images_dir Sample.examples_dir ++
    trace (generate_images_loop Sample.W Sample.images_dir
             Sample.examples_dir (new_viewer "/tmp/tmpX")
             ["/home/sfepy/examples/a/ex1.py"]) ++
    attempt Sample.W Sample.examples_dir "/home/sfepy/examples/a/ex2.py") ++
   [EOutput "***** failed! *****"; EOutput "...done"] ++ trace rest,
   void (result rest)).
Proof.
  exact (solve_failure_is_isolated Sample.W Sample.images_dir
           Sample.examples_dir ["/home/sfepy/examples/a/ex1.py"]
           ["/home/sfepy/examples/b/ex3.py";
            "/home/sfepy/examples/b/linear_elastic_mM.py"]
           "/home/sfepy/examples/a/ex2.py" (OtherError "ValueError")
           (set_filename (new_viewer "/tmp/tmpX") "/tmp/tmpX/result.vtk")
           eq_refl eq_refl eq_refl eq_refl).
Defined.

(** The interrupt in the sample corpus: the first example is rendered, the
    second solve is interrupted, the third example is never tried. *)
Example interrupt_aborts_the_batch :
  result (generate_images Sample.W_interrupt Sample.images_dir
            Sample.examples_dir) = Raised KeyboardInterrupt ∧
  last (trace (generate_images Sample.W_interrupt Sample.images_dir
                 Sample.examples_dir)) =
  Some (ESolve "/home/sfepy/examples/a/ex2.py" (run_options Sample.W)).
Proof. split; reflexivity. Qed.

(** C7, as the claim states it, fails: after the failed solve of [ex2.py]
    in the sample corpus the iteration returns and the loop goes on, and no
    removal of the scratch directory is among its events. *)
Lemma scratch_kept_after_failed_solve :
  result (iteration Sample.W Sample.images_dir Sample.examples_dir
            (new_viewer "/tmp/tmpX") "/home/sfepy/examples/a/ex2.py")
  = Returned (new_viewer "/tmp/tmpX") ∧
  ERemoveFiles "/tmp/tmpX" ∉
    trace (iteration Sample.W Sample.images_dir Sample.examples_dir
             (new_viewer "/tmp/tmpX") "/home/sfepy/examples/a/ex2.py").
Proof.
  split; [reflexivity|].
  rewrite (body_failed Sample.W Sample.images_dir Sample.examples_dir
             (new_viewer "/tmp/tmpX") "/home/sfepy/examples/a/ex2.py"
             "ValueError" eq_refl eq_refl).
  event_in.
Qed.

(** C7, amended.  An iteration of [generate_images] that returns is followed
    by the iterations for the files after it.  When its solve returned a
    problem, the removal of the scratch directory and the closing notice
    are its last two events; when the solve failed or returned no problem,
    the scratch directory is not removed in that iteration. *)
Theorem scratch_removed_only_after_display
    (W : World) (images_dir examples_dir : string) (view0 v : Viewer)
    (ex : string) (post : list string) :
  kept ex = true →
  result (iteration W images_dir examples_dir view0 ex) = Returned v →
  trace (generate_images_loop W images_dir examples_dir view0 (ex :: post)) =
    trace (iteration W images_dir examples_dir view0 ex) ++
    trace (generate_images_loop W images_dir examples_dir v post) ∧
  match pde_solve W ex (run_options W) with
  | Returned (Some _) =>
      ∃ pre, trace (iteration W images_dir examples_dir view0 ex) =
             pre ++ [ERemoveFiles (mkdtemp W); EOutput "...done"]
  | _ =>
      ERemoveFiles (mkdtemp W) ∉
        trace (iteration W images_dir examples_dir view0 ex)
  end.
Proof.
  intros Hk Hr. split.
  { rewrite !loop_unfold. by rewrite (for_fold_cons_returned _ _ _ _ _ Hr). }
  clear post. revert Hr.
  iteration_cases W images_dir examples_dir view0 ex; try done; intros Hr.
  - eexists (attempt W examples_dir ex ++
             display W images_dir examples_dir view0 problem ex ++
             [EClf; EOutput "...done"]).
    unfold trace. simpl fst. by rewrite <- !(assoc_L (++)).
  - event_in.
  - event_in.
Qed.

Lemma scratch_removed_only_after_display_witness :
  trace (generate_images_loop Sample.W Sample.images_dir Sample.examples_dir
           (new_viewer "/tmp/tmpX")
           ["/home/sfepy/examples/a/ex1.py"; "/home/sfepy/examples/a/ex2.py"])
  = trace (iteration Sample.W Sample.images_dir Sample.examples_dir
             (new_viewer "/tmp/tmpX") "/home/sfepy/examples/a/ex1.py") ++
    trace (generate_images_loop Sample.W Sample.images_dir
             Sample.examples_dir
             (set_filename (new_viewer "/tmp/tmpX") "/tmp/tmpX/result.vtk")
             ["/home/sfepy/examples/a/ex2.py"]) ∧
  ∃ pre, trace (iteration Sample.W Sample.images_dir Sample.examples_dir
                  (new_viewer "/tmp/tmpX") "/home/sfepy/examples/a/ex1.py")
         = pre ++ [ERemoveFiles "/tmp/tmpX"; EOutput "...done"].
Proof.
  exact (scratch_removed_only_after_display Sample.W Sample.images_dir
           Sample.examples_dir (new_viewer "/tmp/tmpX")
           (set_filename (new_viewer "/tmp/tmpX") "/tmp/tmpX/result.vtk")
           "/home/sfepy/examples/a/ex1.py" ["/home/sfepy/examples/a/ex2.py"]
           eq_refl eq_refl).
Defined.

(** What an iteration renders, and what it leaves of the viewer. *)
Lemma iteration_render (W : World) (images_dir examples_dir : string)
    (view0 v : Viewer) (ex : string) (show is_scalar_bar : bool)
    (fig_filename : string) :
  ERender v show is_scalar_bar fig_filename ∈
    trace (iteration W images_dir examples_dir view0 ex) →
  show = false ∧ is_scalar_bar = true ∧ kept ex = true ∧
  v_offscreen v = v_offscreen view0 ∧ v_output_dir v = v_output_dir view0 ∧
  fig_filename = (_get_fig_filename (ebase_of examples_dir ex) images_dir).2.
Proof.
  iteration_cases W images_dir examples_dir view0 ex;
    unfold trace, attempt, display; cbn [fst];
    rewrite ?elem_of_app, ?elem_of_cons, ?elem_of_nil;
    intros H; repeat destruct H as [H|H]; try discriminate; try done;
    by injection H as -> -> -> ->.
Qed.

Lemma iteration_viewer (W : World) (images_dir examples_dir : string)
    (view0 v : Viewer) (ex : string) :
  result (iteration W images_dir examples_dir view0 ex) = Returned v →
  v_offscreen v = v_offscreen view0 ∧ v_output_dir v = v_output_dir view0.
Proof.
  iteration_cases W images_dir examples_dir view0 ex;
    unfold result; cbn [snd]; intros H; try discriminate;
    by injection H as <-.
Qed.

Lemma loop_render (W : World) (images_dir examples_dir : string)
    (found : list string) (view0 v : Viewer) (show is_scalar_bar : bool)
    (fig_filename : string) :
  ERender v show is_scalar_bar fig_filename ∈
    trace (generate_images_loop W images_dir examples_dir view0 found) →
  show = false ∧ is_scalar_bar = true ∧
  v_offscreen v = v_offscreen view0 ∧ v_output_dir v = v_output_dir view0 ∧
  ∃ ex, ex ∈ found ∧ kept ex = true ∧
        fig_filename =
        (_get_fig_filename (ebase_of examples_dir ex) images_dir).2.
Proof.
  rewrite loop_unfold. revert view0.
  induction found as [|x found IH]; intros view0.
  - unfold trace. simpl. by intros ?%elem_of_nil.
  - destruct (result (iteration W images_dir examples_dir view0 x))
      as [v1|e] eqn:Hx.
    + rewrite (for_fold_cons_returned _ _ _ _ _ Hx).
      unfold trace at 1. cbn [fst]. rewrite elem_of_app.
      intros [H|H].
      * apply iteration_render in H as (-> & -> & Hk & Ho & Hd & ->).
        repeat split; try done. exists x. split; [left|done].
      * apply IH in H as (-> & -> & Ho & Hd & ex & Hex & Hk & ->).
        apply iteration_viewer in Hx as [Ho' Hd'].
        repeat split; try congruence. exists ex. split; [by right|done].
    + rewrite (for_fold_cons_raised _ _ _ _ _ Hx).
      unfold trace at 1. cbn [fst]. intros H.
      apply iteration_render in H as (-> & -> & Hk & Ho & Hd & ->).
      repeat split; try done. exists x. split; [left|done].
Qed.

(** C9, as the claim states it, fails: the sample run renders [a/ex1.py]
    with the scalar bar and no display, into the path of the path mapper,
    through a viewer that is not offscreen. *)
Lemma render_viewer_not_offscreen :
  ERender {| v_filename := "/tmp/tmpX/result.vtk";
             v_output_dir := "/tmp/tmpX";
             v_offscreen := false |}
    false true "/home/sfepy/doc/images/a-ex1.png" ∈
    trace (generate_images Sample.W Sample.images_dir Sample.examples_dir) ∧
  Spec.image_path_for "a/ex1.py" Sample.images_dir =
  "/home/sfepy/doc/images/a-ex1.png".
Proof.
  split; [|reflexivity].
  vm_compute. find_event.
Qed.

(** C9, amended.  Every call of the renderer in [generate_images] asks for
    the scalar bar and for no display, and writes to the image path that the
    path mapper gives for a file found and not omitted; the viewer it goes
    through was built with [offscreen=False] and the scratch directory as
    its output directory. *)
Theorem render_calls
    (W : World) (images_dir examples_dir : string) (v : Viewer)
    (show is_scalar_bar : bool) (fig_filename : string) :
  ERender v show is_scalar_bar fig_filename ∈
    trace (generate_images W images_dir examples_dir) →
  show = false ∧ is_scalar_bar = true ∧
  v_offscreen v = false ∧ v_output_dir v = mkdtemp W ∧
  ∃ ex, ex ∈ locate_files W "*.py" examples_dir ∧ kept ex = true ∧
        fig_filename =
        Spec.image_path_for (ebase_of examples_dir ex) images_dir.
Proof.
  rewrite generate_images_run. unfold trace at 1. cbn [fst].
  rewrite elem_of_app. intros [H|H]; [event_in|].
  apply loop_render in H as (-> & -> & Ho & Hd & ex & Hex & Hk & ->).
  repeat split; try done. exists ex. by rewrite fig_filename_spec.
Qed.

Lemma render_calls_witness :
  false = false ∧ true = true ∧
  v_offscreen (set_filename (new_viewer "/tmp/tmpX") "/tmp/tmpX/result.vtk")
  = false ∧
  v_output_dir (set_filename (new_viewer "/tmp/tmpX") "/tmp/tmpX/result.vtk")
  = "/tmp/tmpX" ∧
  ∃ ex, ex ∈ locate_files Sample.W "*.py" Sample.examples_dir ∧
        kept ex = true ∧
        "/home/sfepy/doc/images/a-ex1.png" =
        Spec.image_path_for (ebase_of Sample.examples_dir ex)
          Sample.images_dir.
Proof.
  apply (render_calls Sample.W Sample.images_dir Sample.examples_dir
           (set_filename (new_viewer "/tmp/tmpX") "/tmp/tmpX/result.vtk")
           false true "/home/sfepy/doc/images/a-ex1.png").
  vm_compute. find_event.
Defined.

(** ** The exclusion list *)

Lemma iteration_kept_not_skipped (W : World) (images_dir examples_dir : string)
    (view0 : Viewer) (ex : string) :
  kept ex = true →
  iteration W images_dir examples_dir view0 ex ≠ mret view0.
Proof.
  intros Hk.
  iteration_cases W images_dir examples_dir view0 ex; try done;
    intros H; apply (f_equal fst) in H; discriminate H.
Qed.

Lemma dir_map_step_kept (examples_dir ex : string)
    (dir_map : gmap string (list (string * string))) :
  kept ex = true → dir_map_step examples_dir dir_map ex ≠ dir_map.
Proof.
  unfold kept, dir_map_step. intros Hk%negb_true_iff. rewrite Hk.
  set (k := PosixPath.dirname (ebase_of examples_dir ex)).
  intros H. apply (f_equal (λ m, length <$> m !! k)) in H.
  rewrite lookup_insert_eq in H. simpl in H.
  destruct (dir_map !! k) as [l|]; simpl in H; [|done].
  injection H as H. rewrite length_app in H. simpl in H. lia.
Qed.

(** C10.  Both loops decide on the base name of the file alone.  An
    iteration of [generate_images] does nothing at all, and a step of the
    grouping loop of [generate_rst_files] leaves [dir_map] as it was,
    exactly when the base name of the file is in [omits]; and a file with a
    listed base name has that base name below whatever directory. *)
Theorem omits_match_basename
    (W : World) (images_dir examples_dir : string) (view0 : Viewer)
    (dir_map : gmap string (list (string * string))) (ex : string) :
  (iteration W images_dir examples_dir view0 ex = mret view0 ↔
   PosixPath.basename ex ∈ omits) ∧
  (dir_map_step examples_dir dir_map ex = dir_map ↔
   PosixPath.basename ex ∈ omits) ∧
  (∀ dir base : string,
     base ∈ omits →
     iteration W images_dir examples_dir view0 (dir +:+ "/" +:+ base)
     = mret view0 ∧
     dir_map_step examples_dir dir_map (dir +:+ "/" +:+ base) = dir_map).
Proof.
  rewrite <- kept_false_iff. repeat split.
  - intros H. destruct (kept ex) eqn:Hk; [|done].
    by destruct (iteration_kept_not_skipped W images_dir examples_dir
                   view0 ex Hk).
  - apply body_omitted.
  - intros H. destruct (kept ex) eqn:Hk; [|done].
    by destruct (dir_map_step_kept examples_dir ex dir_map Hk).
  - unfold kept, dir_map_step. intros Hk%negb_false_iff. by rewrite Hk.
  - apply body_omitted, kept_false_iff. rewrite basename_app; [done|].
    unfold omits in H. by apply list_elem_of_singleton in H as ->.
  - assert (kept (dir +:+ "/" +:+ base) = false) as Hk.
    { apply kept_false_iff. rewrite basename_app; [done|].
      unfold omits in H. by apply list_elem_of_singleton in H as ->. }
    unfold kept, dir_map_step in *. apply negb_false_iff in Hk.
    by rewrite Hk.
Qed.

(** The omitted example of the sample corpus, and a namesake in another
    directory: neither is tried, neither gets a page. *)
Example omitted_in_any_directory :
  kept "/home/sfepy/examples/b/linear_elastic_mM.py" = false ∧
  kept "/home/sfepy/examples/a/deep/linear_elastic_mM.py" = false ∧
  kept "/home/sfepy/examples/b/linear_elastic_mM_2.py" = true.
Proof. repeat split; reflexivity. Qed.

(** ** The path mapper *)

(** C3, as the claim states it, fails: two distinct example paths flatten
    to the same image. *)
Lemma flattening_collides :
  _get_fig_filename "a/b.py" Sample.images_dir =
  _get_fig_filename "a-b.py" Sample.images_dir ∧
  _get_fig_filename "a/b.py" Sample.images_dir =
  ("a-b", "/home/sfepy/doc/images/a-b.png") ∧
  "a/b.py" ≠ "a-b.py".
Proof. repeat split; done. Qed.

(** C3, amended.  The image path is a function of the example path and the
    images directory: for every path and directory the extension is
    stripped, every separator of what remains becomes ['-'], ['.png'] is
    appended and the name is joined under the directory; the name has no
    separator and is the last component of the path.  The image path of
    another example path with the same extension is the same only when the
    two paths are equal, provided neither holds ['-'] before its
    extension. *)
Theorem image_path_flat_and_injective (p images_dir : string) :
  let name := (_get_fig_filename p images_dir).1 +:+ ".png" in
  (_get_fig_filename p images_dir).1 =
    Spec.flatten (PosixPath.splitext p).1 ∧
  (_get_fig_filename p images_dir).2 = PosixPath.join images_dir name ∧
  (_get_fig_filename p images_dir).2 = Spec.image_path_for p images_dir ∧
  PyStr.mem "/" name = false ∧
  PosixPath.basename (_get_fig_filename p images_dir).2 = name ∧
  (∀ p2,
     (PosixPath.splitext p).2 = (PosixPath.splitext p2).2 →
     PyStr.mem "-" (PosixPath.splitext p).1 = false →
     PyStr.mem "-" (PosixPath.splitext p2).1 = false →
     ((_get_fig_filename p images_dir).2 = (_get_fig_filename p2 images_dir).2
      ↔ p = p2)).
Proof.
  intros name. subst name.
  assert (∀ p, (_get_fig_filename p images_dir).1 =
               Spec.flatten (PosixPath.splitext p).1) as Hbase.
  { intros q. unfold _get_fig_filename. cbv zeta. cbn [fst].
    apply replace_sep_flatten. }
  assert (∀ p, PyStr.mem "/" ((_get_fig_filename p images_dir).1 +:+ ".png")
               = false) as Hflat.
  { intros q. by rewrite Hbase, mem_app, flatten_no_sep. }
  assert (∀ p, (_get_fig_filename p images_dir).2 =
               PosixPath.join images_dir
                 ((_get_fig_filename p images_dir).1 +:+ ".png")) as Hjoin.
  { done. }
  split; [apply Hbase|].
  split; [done|].
  split; [apply fig_filename_spec|].
  split; [apply Hflat|].
  split; [rewrite Hjoin; apply basename_join, Hflat|].
  intros p2 Hext H1 H2. split.
  - rewrite !Hjoin. intros H%join_inj; [|apply Hflat..].
    apply str_app_inv_tail in H. rewrite !Hbase in H.
    apply flatten_inj in H; [|done..].
    by rewrite <- (splitext_app p), <- (splitext_app p2), H, Hext.
  - by intros ->.
Qed.

Lemma image_path_flat_and_injective_witness :
  let name := (_get_fig_filename "a/ex1.py" Sample.images_dir).1 +:+ ".png" in
  (_get_fig_filename "a/ex1.py" Sample.images_dir).1 =
    Spec.flatten (PosixPath.splitext "a/ex1.py").1 ∧
  (_get_fig_filename "a/ex1.py" Sample.images_dir).2 =
    PosixPath.join Sample.images_dir name ∧
  (_get_fig_filename "a/ex1.py" Sample.images_dir).2 =
    Spec.image_path_for "a/ex1.py" Sample.images_dir ∧
  PyStr.mem "/" name = false ∧
  PosixPath.basename (_get_fig_filename "a/ex1.py" Sample.images_dir).2
  = name ∧
  ((_get_fig_filename "a/ex1.py" Sample.images_dir).2 =
   (_get_fig_filename "a/ex2.py" Sample.images_dir).2
   ↔ "a/ex1.py" = "a/ex2.py").
Proof.
  destruct (image_path_flat_and_injective "a/ex1.py" Sample.images_dir)
    as (H1 & H2 & H3 & H4 & H5 & H6).
  exact (conj H1 (conj H2 (conj H3 (conj H4 (conj H5
           (H6 "a/ex2.py" eq_refl eq_refl eq_refl)))))).
Defined.

(** ** The documentation tree builder *)

Lemma for_fold_pure {A S : Type} (body : S → A → M S)
    (ev : A → list event) (upd : S → A → S) (l : list A) (s : S) :
  (∀ s x, body s x = (ev x, Returned (upd s x))) →
  for_fold l s body = (mjoin (ev <$> l), Returned (foldl upd s l)).
Proof.
  intros Hbody. revert s. induction l as [|x l IH]; intros s; [done|].
  simpl. rewrite Hbody. unfold mbind, M_bind. cbn [fst snd].
  by rewrite IH.
Qed.

Lemma foldl_write {A : Type} (line : A → string) (l : list A) (fd : file) :
  foldl (λ fd x, write fd (line x)) fd l =
  {| f_name := f_name fd; f_data := f_data fd +:+ written (line <$> l) |}.
Proof.
  revert fd. induction l as [|x l IH]; intros fd.
  - simpl. rewrite str_app_nil_r. by destruct fd.
  - simpl. rewrite IH. unfold write. simpl. by rewrite str_app_assoc.
Qed.

Lemma rst_example_run (W : World)
    (rst_dir examples_dir images_dir full_dirname : string) (ifd : file)
    (item : string * string) :
  rst_example W rst_dir examples_dir images_dir full_dirname ifd item =
  (example_events W rst_dir examples_dir images_dir full_dirname item,
   Returned (write ifd (example_line item))).
Proof. by destruct item. Qed.

Lemma rst_directory_run (W : World) (rst_dir examples_dir images_dir : string)
    (mfd : file) (item : string * list (string * string)) :
  rst_directory W rst_dir examples_dir images_dir mfd item =
  (directory_events W rst_dir examples_dir images_dir item,
   Returned (write mfd (directory_line item.1))).
Proof.
  destruct item as [dirname filenames].
  unfold rst_directory, directory_events, sub_index_page.
  unfold open_w, close, emit, mbind, M_bind, mret, M_ret. cbn [fst snd].
  rewrite (for_fold_pure _ _ _ _ _
             (rst_example_run W rst_dir examples_dir images_dir
                (PosixPath.join rst_dir dirname))).
  cbn [fst snd]. rewrite foldl_write. cbn [f_name f_data write].
  by rewrite !app_nil_r.
Qed.

Lemma generate_rst_files_run (W : World)
    (rst_dir examples_dir images_dir : string) :
  generate_rst_files W rst_dir examples_dir images_dir =
  (rst_events W rst_dir examples_dir images_dir, Returned tt).
Proof.
  unfold generate_rst_files, rst_events, main_index_page, rst_groups.
  unfold open_w, close, output, emit, mbind, M_bind, mret, M_ret.
  cbn [fst snd].
  rewrite (for_fold_pure _ _ _ _ _
             (rst_directory_run W rst_dir examples_dir images_dir)).
  cbn [fst snd]. rewrite (foldl_write (λ item, directory_line item.1)).
  cbn [f_name f_data write]. rewrite <- list_fmap_compose.
  by rewrite !app_nil_r.
Qed.

(** *** Grouping by directory *)

Lemma members_snoc (examples_dir : string) (found : list string)
    (x base_dir : string) :
  members examples_dir (found ++ [x]) base_dir =
  members examples_dir found base_dir ++
  (if decide (kept x = true ∧
              PosixPath.dirname (ebase_of examples_dir x) = base_dir)
   then [x] else []).
Proof.
  unfold members. by rewrite filter_app.
Qed.

Lemma build_dir_map_snoc (examples_dir : string) (found : list string)
    (x : string) :
  build_dir_map examples_dir (found ++ [x]) =
  dir_map_step examples_dir (build_dir_map examples_dir found) x.
Proof. unfold build_dir_map. by rewrite foldl_app. Qed.

(** [dir_map] holds, under each directory, the kept examples of that
    directory in the order they were found, and no empty group. *)
Lemma build_dir_map_lookup (examples_dir : string) (found : list string)
    (base_dir : string) :
  build_dir_map examples_dir found !! base_dir =
  match members examples_dir found base_dir with
  | [] => None
  | l => Some (dir_map_item <$> l)
  end.
Proof.
  induction found as [|x found IH] using rev_ind; [done|].
  rewrite build_dir_map_snoc, members_snoc. unfold dir_map_step.
  destruct (kept x) eqn:Hk; unfold kept in Hk.
  - apply negb_true_iff in Hk. rewrite Hk.
    destruct (decide (PosixPath.dirname (ebase_of examples_dir x) = base_dir))
      as [<-|Hne].
    + rewrite lookup_insert_eq, IH. rewrite decide_True by done.
      fold (rst_name x). fold (dir_map_item x).
      destruct (members examples_dir found _) as [|y l]; [done|].
      simpl. by rewrite fmap_app.
    + rewrite lookup_insert_ne by done. rewrite IH.
      rewrite decide_False by tauto. by rewrite app_nil_r.
  - apply negb_false_iff in Hk. rewrite Hk.
    rewrite decide_False by (intros [? _]; done). by rewrite app_nil_r.
Qed.

Lemma build_dir_map_Some (examples_dir : string) (found : list string)
    (base_dir : string) (l : list (string * string)) :
  build_dir_map examples_dir found !! base_dir = Some l ↔
  l = dir_map_item <$> members examples_dir found base_dir ∧
  members examples_dir found base_dir ≠ [].
Proof.
  rewrite build_dir_map_lookup.
  destruct (members examples_dir found base_dir) as [|y l'].
  - split; [done | by intros [_ ?]].
  - split; [by intros [= <-] | by intros [-> _]].
Qed.

(** *** Iteration in key order *)

Lemma ordered_iteritems_keys {V} `{Inhabited V} (adict : gmap string V) :
  (ordered_iteritems adict).*1 =
  merge_sort String.le (map_to_list adict).*1.
Proof.
  unfold ordered_iteritems. rewrite <- list_fmap_compose.
  by rewrite list_fmap_id.
Qed.


Lemma elem_of_ordered_iteritems_keys {V} `{Inhabited V}
    (adict : gmap string V) (key : string) :
  key ∈ (ordered_iteritems adict).*1 ↔ is_Some (adict !! key).
Proof.
  rewrite ordered_iteritems_keys, merge_sort_Permutation.
  rewrite list_elem_of_fmap. split.
  - intros [[k v] [-> Hkv%elem_of_map_to_list]]. by exists v.
  - intros [v Hv]. exists (key, v). by rewrite elem_of_map_to_list.
Qed.

Lemma elem_of_ordered_iteritems {V} `{Inhabited V}
    (adict : gmap string V) (key : string) (v : V) :
  (key, v) ∈ ordered_iteritems adict ↔ adict !! key = Some v.
Proof.
  unfold ordered_iteritems. rewrite list_elem_of_fmap. split.
  - intros [k [[= -> ->] Hk]].
    assert (k ∈ (ordered_iteritems adict).*1) as [v Hv]%elem_of_ordered_iteritems_keys
      by (by rewrite ordered_iteritems_keys).
    by rewrite (lookup_total_correct _ _ _ Hv).
  - intros Hv. exists key. rewrite (lookup_total_correct _ _ _ Hv).
    split; [done|].
    rewrite <- ordered_iteritems_keys.
    apply elem_of_ordered_iteritems_keys. by exists v.
Qed.

(** *** The pages written *)







(** The example path below a root that the root string does not occur in
    again. *)
Lemma ebase_of_rooted (examples_dir rel : string) :
  examples_dir ≠ "" →
  Spec.occurs examples_dir ("/" +:+ rel) = false →
  ebase_of examples_dir (examples_dir +:+ "/" +:+ rel) = rel.
Proof.
  intros Hne Ho. unfold ebase_of.
  rewrite replace_prefix by done.
  by rewrite (replace_absent _ _ _ Ho).
Qed.

(** ** One image path on both sides *)

(** *** When a replacement leaves a string as it is *)












(** ** The pages, on examples roots that come again in a path *)

(** C5: the code at the failing input.  The only example found lies at
    [a/e/x.py] below the root [/e]; its page is written under [a] and is
    titled [a/x.py]. *)
Theorem title_drops_repeated_root :
  locate_files Sample.W_nested "*.py" "/e" = ["/e" +:+ "/" +:+ "a/e/x.py"] ∧
  ebase_of "/e" "/e/a/e/x.py" = "a/x.py" ∧
  EClose "/doc/examples/a/x.rst"
    (_include "a-x" "a/x.py" "======" "/doc/images/a-x.png"
       "../../../../e/a/e/x.py" "/e/a/e/x.py") ∈
    trace (generate_rst_files Sample.W_nested "/doc/examples" "/e"
             "/doc/images").
Proof. repeat split; [vm_compute; find_event]. Qed.

(** C4: the code at the failing input.  With the same corpus the top-level
    index lists the directory [a], which holds no example, and not [a/e],
    which holds the one found.  With an example named [a.rst.py] the index of
    its directory lists [a], while its page is [a.rst.rst]. *)
Theorem index_lists_another_directory :
  EClose "/doc/examples/index.rst" (main_index_page ["a"]) ∈
    trace (generate_rst_files Sample.W_nested "/doc/examples" "/e"
             "/doc/images") ∧
  PosixPath.dirname "a/e/x.py" = "a/e" ∧
  EClose "/doc/examples/d/index.rst"
    (sub_index_page "d" [("/e/d/a.rst.py", "a.rst.rst")]) ∈
    trace (generate_rst_files Sample.W_rst "/doc/examples" "/e"
             "/doc/images") ∧
  example_line ("/e/d/a.rst.py", "a.rst.rst") = "    a" +:+ nl ∧
  (PosixPath.splitext "a.rst.rst").1 = "a.rst".
Proof. repeat split; vm_compute; find_event. Qed.



(** The scenario of the specification: directories [a] and [b], in that
    order. *)
Example sample_directories :
  (rst_groups Sample.W Sample.examples_dir).*1 = ["a"; "b"] ∧
  sub_index_page "a"
    (dir_map_item <$>
       members Sample.examples_dir
         (locate_files Sample.W "*.py" Sample.examples_dir) "a") =
  _index "a" "a" "=" +:+ "    ex1" +:+ nl +:+ "    ex2" +:+ nl.
Proof. split; vm_compute; reflexivity. Qed.



(** ** Running the builder again *)





















(** Two handles on one path: the index of the examples that lie right
    below the examples directory is closed first, and the top-level index
    is then laid over it. *)
Example shared_index_after_run :
  let tr := trace (generate_rst_files Sample.W_top Sample.rst_dir
                     Sample.examples_dir Sample.images_dir) in
  times_opened "/home/sfepy/doc/examples/index.rst" tr = 2%nat ∧
  fs_after tr ∅ !! "/home/sfepy/doc/examples/index.rst" =
    Some (overlay (main_index_page [""; "a"])
            (sub_index_page ""
               [dir_map_item "/home/sfepy/examples/top.py"])).
Proof. split; reflexivity. Qed.

(** ** The driver *)




(** The sample corpus without and with the option. *)
Example driver_no_images :
  let options := {| opt_examples_dir := "examples";
                    opt_images_dir := None;
                    opt_no_images := true;
                    opt_output_filename := "doc/gallery.html" |} in
  main Sample.W options =
  generate_rst_files Sample.W "/home/sfepy/doc/examples"
    "/home/sfepy/examples" "/home/sfepy/doc/images".
Proof. reflexivity. Qed.

(** ** The thumbnail generator *)

Lemma rfind_go_spec (c : ascii) (s : string) (i last : Z) :
  last < i →
  (PyStr.rfind_go c s i last = last ∧ PyStr.mem c s = false) ∨
  (i ≤ PyStr.rfind_go c s i last < i + Z.of_nat (String.length s) ∧
   PyStr.mem c
     (PyStr.drop (Z.to_nat (PyStr.rfind_go c s i last - i + 1)) s) = false).
Proof.
  revert i last. induction s as [|a s IH]; intros i last Hlt; [by left|].
  cbn [PyStr.rfind_go PyStr.mem String.length].
  destruct (IH (i + 1) (if Ascii.eqb a c then i else last))
    as [[Hr Hm]|[Hr Hm]].
  { destruct (Ascii.eqb a c); lia. }
  - rewrite Hr, Hm. destruct (Ascii.eqb a c) eqn:Hac.
    + right. split; [lia|].
      replace (Z.to_nat (i - i + 1)) with 1%nat by lia. exact Hm.
    + by left.
  - right. split; [lia|].
    set (r := PyStr.rfind_go c s (i + 1) (if Ascii.eqb a c then i else last))
      in *.
    replace (Z.to_nat (r - i + 1)) with (S (Z.to_nat (r - (i + 1) + 1)))
      by lia.
    exact Hm.
Qed.

Lemma basename_no_sep (p : string) :
  PyStr.mem "/" (PosixPath.basename p) = false.
Proof.
  unfold PosixPath.basename, PyStr.rfind.
  destruct (rfind_go_spec PosixPath.sep p 0 (-1)) as [[-> Hm]|[_ Hm]];
    [lia|exact Hm|].
  by rewrite Z.sub_0_r in Hm.
Qed.

Lemma for_each_returns {A : Type} (body : A → M unit)
    (ev : A → list event) (l : list A) :
  (∀ x, x ∈ l → body x = (ev x, Returned tt)) →
  for_each l body = (mjoin (ev <$> l), Returned tt).
Proof.
  induction l as [|x l IH]; intros Hbody; [done|].
  simpl. rewrite (Hbody x) by left. unfold mbind, M_bind. cbn [fst snd].
  rewrite IH; [done|]. intros y Hy. apply Hbody. by right.
Qed.

Lemma for_each_raises {A : Type} (body : A → M unit)
    (ev : A → list event) (pre post : list A) (x : A) (e : exn) :
  (∀ y, y ∈ pre → body y = (ev y, Returned tt)) →
  body x = (ev x, Raised e) →
  for_each (pre ++ x :: post) body = (mjoin (ev <$> pre) ++ ev x, Raised e).
Proof.
  intros Hpre Hx. induction pre as [|y pre IH].
  - simpl. rewrite Hx. unfold mbind, M_bind. done.
  - simpl. rewrite (Hpre y) by left. unfold mbind, M_bind. cbn [fst snd].
    rewrite IH; [|intros z Hz; apply Hpre; by right].
    cbn [fst snd]. by rewrite (assoc_L (++)).
Qed.

Lemma generate_thumbnails_run (W : World) (thumbnails_dir images_dir : string)
    (scale : Q) :
  generate_thumbnails W thumbnails_dir images_dir scale =
  (emit (EEnsurePath (thumbnails_dir +:+ "/")) ;;
   emit (EOutput "generating thumbnails...") ;;
   emit (EGlob (PosixPath.join images_dir "*.png")) ;;
   for_each (glob W (PosixPath.join images_dir "*.png"))
     (λ fig_filename,
        (thumbnail_events W thumbnails_dir scale fig_filename,
         thumbnail W fig_filename
           (PosixPath.join thumbnails_dir (PosixPath.basename fig_filename))
           scale)) ;;
   emit (EOutput "...done")).
Proof. reflexivity. Qed.

Lemma thumbnail_calls_events (W : World) (thumbnails_dir : string) (scale : Q)
    (l : list string) :
  thumbnail_calls (mjoin (thumbnail_events W thumbnails_dir scale <$> l)) =
  (λ f, (f, PosixPath.join thumbnails_dir (PosixPath.basename f), scale))
    <$> l.
Proof.
  induction l as [|f l IH]; [done|].
  unfold thumbnail_calls in *.
  replace (mjoin (thumbnail_events W thumbnails_dir scale <$> f :: l))
    with (thumbnail_events W thumbnails_dir scale f ++
          mjoin (thumbnail_events W thumbnails_dir scale <$> l))
    by reflexivity.
  by rewrite omap_app, IH.
Qed.

(** X3.  When every call of the thumbnailer returns, [generate_thumbnails]
    returns, and its calls of the thumbnailer are, in the order of the glob,
    one per image found, each from the image to the path of the same base
    name under the thumbnails directory, with the scale given. *)
Theorem thumbnails_keep_names
    (W : World) (thumbnails_dir images_dir : string) (scale : Q) :
  (∀ f, f ∈ glob W (PosixPath.join images_dir "*.png") →
        thumbnail W f
          (PosixPath.join thumbnails_dir (PosixPath.basename f)) scale
        = Returned tt) →
  result (generate_thumbnails W thumbnails_dir images_dir scale)
  = Returned tt ∧
  thumbnail_calls
    (trace (generate_thumbnails W thumbnails_dir images_dir scale)) =
  (λ f, (f, PosixPath.join thumbnails_dir (PosixPath.basename f), scale))
    <$> glob W (PosixPath.join images_dir "*.png") ∧
  (∀ f, PosixPath.basename
          (PosixPath.join thumbnails_dir (PosixPath.basename f))
        = PosixPath.basename f).
Proof.
  intros Hret. rewrite generate_thumbnails_run.
  rewrite (for_each_returns _ (thumbnail_events W thumbnails_dir scale))
    by (intros f Hf; by rewrite (Hret f Hf)).
  split; [done|]. split.
  - unfold trace, mbind, M_bind, emit. cbn [fst snd].
    unfold thumbnail_calls. cbn [omap list_omap app].
    rewrite omap_app. cbn [omap list_omap]. rewrite app_nil_r.
    apply thumbnail_calls_events.
  - intros f. apply basename_join, basename_no_sep.
Qed.

(** X4.  A call of the thumbnailer that raises ends [generate_thumbnails]:
    the exception leaves the function, the images after it get no
    thumbnail, and the closing notice is not reported. *)
Theorem thumbnail_failure_aborts
    (W : World) (thumbnails_dir images_dir : string) (scale : Q)
    (pre post : list string) (f : string) (e : exn) :
  glob W (PosixPath.join images_dir "*.png") = pre ++ f :: post →
  (∀ g, g ∈ pre →
        thumbnail W g
          (PosixPath.join thumbnails_dir (PosixPath.basename g)) scale
        = Returned tt) →
  thumbnail W f (PosixPath.join thumbnails_dir (PosixPath.basename f)) scale
  = Raised e →
  generate_thumbnails W thumbnails_dir images_dir scale =
  (thumbnails_setup thumbnails_dir images_dir ++
   mjoin (thumbnail_events W thumbnails_dir scale <$> pre) ++
   thumbnail_events W thumbnails_dir scale f,
   Raised e) ∧
  thumbnail_calls
    (trace (generate_thumbnails W thumbnails_dir images_dir scale)) =
  (λ g, (g, PosixPath.join thumbnails_dir (PosixPath.basename g), scale))
    <$> (pre ++ [f]).
Proof.
  intros Hglob Hpre Hf.
  assert (generate_thumbnails W thumbnails_dir images_dir scale =
          (thumbnails_setup thumbnails_dir images_dir ++
           mjoin (thumbnail_events W thumbnails_dir scale <$> pre) ++
           thumbnail_events W thumbnails_dir scale f, Raised e)) as Hrun.
  { rewrite generate_thumbnails_run, Hglob.
    rewrite (for_each_raises _ (thumbnail_events W thumbnails_dir scale)
               pre post f e)
      by (try (intros g Hg; by rewrite (Hpre g Hg)); by rewrite Hf).
    reflexivity. }
  split; [exact Hrun|]. rewrite Hrun. unfold trace. cbn [fst].
  unfold thumbnails_setup. unfold thumbnail_calls at 1.
  cbn [omap list_omap app]. fold (thumbnail_calls
    (mjoin (thumbnail_events W thumbnails_dir scale <$> pre) ++
     thumbnail_events W thumbnails_dir scale f)).
  unfold thumbnail_calls. rewrite omap_app.
  fold (thumbnail_calls
          (mjoin (thumbnail_events W thumbnails_dir scale <$> pre))).
  rewrite thumbnail_calls_events, fmap_app. reflexivity.
Qed.

Lemma thumbnails_keep_names_witness :
  result (generate_thumbnails Sample.W_thumbs
            "/home/sfepy/doc/images/thumbnails" Sample.images_dir (3 # 10))
  = Returned tt ∧
  thumbnail_calls
    (trace (generate_thumbnails Sample.W_thumbs
              "/home/sfepy/doc/images/thumbnails" Sample.images_dir (3 # 10)))
  = (λ f, (f, PosixPath.join "/home/sfepy/doc/images/thumbnails"
                (PosixPath.basename f), 3 # 10))
      <$> glob Sample.W_thumbs (PosixPath.join Sample.images_dir "*.png") ∧
  (∀ f, PosixPath.basename
          (PosixPath.join "/home/sfepy/doc/images/thumbnails"
             (PosixPath.basename f))
        = PosixPath.basename f).
Proof.
  apply (thumbnails_keep_names Sample.W_thumbs
           "/home/sfepy/doc/images/thumbnails" Sample.images_dir (3 # 10)).
  intros f _. reflexivity.
Defined.

Lemma thumbnail_failure_aborts_witness :
  result (generate_thumbnails Sample.W_thumbs_fail
            "/home/sfepy/doc/images/thumbnails" Sample.images_dir (3 # 10))
  = Raised (OtherError "IOError") ∧
  thumbnail_calls
    (trace (generate_thumbnails Sample.W_thumbs_fail
              "/home/sfepy/doc/images/thumbnails" Sample.images_dir (3 # 10)))
  = [("/home/sfepy/doc/images/a-ex1.png",
      "/home/sfepy/doc/images/thumbnails/a-ex1.png", 3 # 10);
     ("/home/sfepy/doc/images/b-ex3.png",
      "/home/sfepy/doc/images/thumbnails/b-ex3.png", 3 # 10)].
Proof.
  destruct (thumbnail_failure_aborts Sample.W_thumbs_fail
              "/home/sfepy/doc/images/thumbnails" Sample.images_dir (3 # 10)
              ["/home/sfepy/doc/images/a-ex1.png"]
              ["/home/sfepy/doc/images/c-ex4.png"]
              "/home/sfepy/doc/images/b-ex3.png" (OtherError "IOError")
              eq_refl
              ltac:(intros g [->|[]%elem_of_nil]%elem_of_cons; reflexivity)
              eq_refl) as [Hrun Hcalls].
  split; [by rewrite Hrun | exact Hcalls].
Defined.

(** ** More on the image generator *)

(** X5.  The call of the renderer is outside the [try]: when it raises, for
    whatever exception, [generate_images] ends there raising it.  The
    scratch directory is not removed and the files after the example are
    not tried. *)
Theorem render_failure_aborts
    (W : World) (images_dir examples_dir : string)
    (pre post : list string) (ex : string) (problem : Problem) (e : exn)
    (v : Viewer) :
  locate_files W "*.py" examples_dir = pre ++ ex :: post →
  result (generate_images_loop W images_dir examples_dir
            (new_viewer (mkdtemp W)) pre) = Returned v →
  kept ex = true →
  pde_solve W ex (run_options W) = Returned (Some problem) →
  view_call W (set_filename v (result_file W problem)) false true
    (_get_fig_filename (ebase_of examples_dir ex) images_dir).2 = Raised e →
  generate_images W images_dir examples_dir =
  (images_setup W images_dir examples_dir ++
   trace (generate_images_loop W images_dir examples_dir
            (new_viewer (mkdtemp W)) pre) ++
   attempt W examples_dir ex ++
   [EOutput ("displaying results from " +:+ dq +:+ result_file W problem
             +:+ dq);
    EOutput ("to " +:+ dq +:+
             PyStr.drop 1
               (PyStr.replace (data_dir W) ""
                  (_get_fig_filename (ebase_of examples_dir ex)
                     images_dir).2)
             +:+ dq +:+ "...");
    ERender (set_filename v (result_file W problem)) false true
      (_get_fig_filename (ebase_of examples_dir ex) images_dir).2],
   Raised e).
Proof.
  intros Hfound Hpre Hk Hs Hv.
  rewrite generate_images_run, Hfound.
  rewrite !loop_unfold in *.
  rewrite (for_fold_app_returned _ _ _ _ _ Hpre).
  pose proof (body_render_raised W images_dir examples_dir v ex problem e
                Hk Hs Hv) as Hbody.
  rewrite (for_fold_cons_raised _ ex post v e) by (by rewrite Hbody).
  rewrite Hbody. reflexivity.
Qed.

Lemma render_failure_aborts_witness :
  result (generate_images Sample.W_render_fail Sample.images_dir
            Sample.examples_dir) = Raised (OtherError "RuntimeError") ∧
  render_targets
    (trace (generate_images Sample.W_render_fail Sample.images_dir
              Sample.examples_dir)) =
  ["/home/sfepy/doc/images/a-ex1.png"; "/home/sfepy/doc/images/a-ex2.png"].
Proof.
  pose proof (render_failure_aborts Sample.W_render_fail Sample.images_dir
                Sample.examples_dir ["/home/sfepy/examples/a/ex1.py"]
                ["/home/sfepy/examples/b/ex3.py";
                 "/home/sfepy/examples/b/linear_elastic_mM.py"]
                "/home/sfepy/examples/a/ex2.py" Sample.steady
                (OtherError "RuntimeError")
                (set_filename (new_viewer "/tmp/tmpX")
                   "/tmp/tmpX/result.010.vtk")
                eq_refl eq_refl eq_refl eq_refl eq_refl) as Hrun.
  rewrite Hrun. split; reflexivity.
Defined.

Lemma solve_calls_app (tr1 tr2 : list event) :
  solve_calls (tr1 ++ tr2) = solve_calls tr1 ++ solve_calls tr2.
Proof. apply omap_app. Qed.

Lemma solve_calls_iteration (W : World) (images_dir examples_dir : string)
    (view0 : Viewer) (ex : string) :
  solve_calls (trace (iteration W images_dir examples_dir view0 ex)) =
  if kept ex then [(ex, run_options W)] else [].
Proof.
  iteration_cases W images_dir examples_dir view0 ex; reflexivity.
Qed.

Lemma solve_calls_loop (W : World) (images_dir examples_dir : string)
    (found : list string) (view0 : Viewer) :
  solve_calls
    (trace (generate_images_loop W images_dir examples_dir view0 found))
  `prefix_of`
  (λ ex, (ex, run_options W)) <$> filter (λ ex, kept ex = true) found ∧
  (∀ v, result (generate_images_loop W images_dir examples_dir view0 found)
        = Returned v →
        solve_calls
          (trace (generate_images_loop W images_dir examples_dir view0 found))
        = (λ ex, (ex, run_options W)) <$> filter (λ ex, kept ex = true) found).
Proof.
  rewrite loop_unfold. revert view0.
  induction found as [|x found IH]; intros view0; [done|].
  assert ((λ ex, (ex, run_options W)) <$>
            filter (λ ex, kept ex = true) (x :: found) =
          (if kept x then [(x, run_options W)] else []) ++
          ((λ ex, (ex, run_options W)) <$>
             filter (λ ex, kept ex = true) found)) as ->.
  { rewrite filter_cons. by destruct (kept x). }
  rewrite <- (solve_calls_iteration W images_dir examples_dir view0 x).
  destruct (result (iteration W images_dir examples_dir view0 x))
    as [v1|e] eqn:Hx.
  - rewrite (for_fold_cons_returned _ _ _ _ _ Hx).
    rewrite !trace_pair, result_pair, solve_calls_app.
    destruct (IH v1) as [Hp He]. split.
    + by apply prefix_app_alt.
    + intros v Hv. f_equal. by apply (He v).
  - rewrite (for_fold_cons_raised _ _ _ _ _ Hx).
    rewrite !trace_pair, result_pair. split; [|done].
    by apply prefix_app_r.
Qed.

(** X6.  [generate_images] calls the solver on the files found that the
    exclusion list lets through, in the order they were found and each with
    the one record of options built before the loop: always on a leading
    part of them, and on all of them, once each, when the function
    returns. *)
Theorem solves_follow_discovery
    (W : World) (images_dir examples_dir : string) :
  let options :=
    {| output_filename_trunk := PosixPath.join (mkdtemp W) "result";
       output_format := "vtk";
       save_ebc := false;
       save_regions := false;
       save_field_meshes := false;
       save_regions_as_groups := false;
       solve_not := false |} in
  let candidates :=
    (λ ex, (ex, options)) <$>
      filter (λ ex, PyStr.In_list (PosixPath.basename ex) omits = false)
        (locate_files W "*.py" examples_dir) in
  solve_calls (trace (generate_images W images_dir examples_dir))
  `prefix_of` candidates ∧
  (result (generate_images W images_dir examples_dir) = Returned tt →
   solve_calls (trace (generate_images W images_dir examples_dir))
   = candidates).
Proof.
  intros options candidates.
  assert (candidates =
          (λ ex, (ex, run_options W)) <$>
            filter (λ ex, kept ex = true)
              (locate_files W "*.py" examples_dir)) as ->.
  { subst candidates. f_equal. apply list_filter_iff. intros ex.
    unfold kept. by rewrite negb_true_iff. }
  rewrite generate_images_run, !trace_pair, result_pair.
  assert (∀ tr, solve_calls (images_setup W images_dir examples_dir ++ tr)
                = solve_calls tr) as Hsetup by done.
  rewrite !Hsetup.
  destruct (solve_calls_loop W images_dir examples_dir
              (locate_files W "*.py" examples_dir) (new_viewer (mkdtemp W)))
    as [Hp He].
  split; [exact Hp|]. intros Hr.
  destruct (result (generate_images_loop W images_dir examples_dir
                      (new_viewer (mkdtemp W))
                      (locate_files W "*.py" examples_dir)))
    as [v|e] eqn:Hl; [|done].
  by apply (He v).
Qed.

Lemma iteration_render_source (W : World) (images_dir examples_dir : string)
    (view0 v : Viewer) (ex : string) (show is_scalar_bar : bool)
    (fig_filename : string) :
  ERender v show is_scalar_bar fig_filename ∈
    trace (iteration W images_dir examples_dir view0 ex) →
  ∃ problem, pde_solve W ex (run_options W) = Returned (Some problem) ∧
             v = set_filename view0 (result_file W problem).
Proof.
  iteration_cases W images_dir examples_dir view0 ex;
    unfold trace, attempt, display; cbn [fst];
    rewrite ?elem_of_app, ?elem_of_cons, ?elem_of_nil;
    intros H; repeat destruct H as [H|H]; try discriminate; try done;
    injection H as -> _ _ _; by exists problem.
Qed.

Lemma loop_render_source (W : World) (images_dir examples_dir : string)
    (found : list string) (view0 v : Viewer) (show is_scalar_bar : bool)
    (fig_filename : string) :
  ERender v show is_scalar_bar fig_filename ∈
    trace (generate_images_loop W images_dir examples_dir view0 found) →
  ∃ ex problem,
    ex ∈ found ∧
    pde_solve W ex (run_options W) = Returned (Some problem) ∧
    v_filename v = result_file W problem ∧
    fig_filename =
      (_get_fig_filename (ebase_of examples_dir ex) images_dir).2.
Proof.
  rewrite loop_unfold. revert view0.
  induction found as [|x found IH]; intros view0.
  - unfold trace. simpl. by intros ?%elem_of_nil.
  - assert (ERender v show is_scalar_bar fig_filename ∈
              trace (iteration W images_dir examples_dir view0 x) →
            ∃ ex problem,
              ex ∈ x :: found ∧
              pde_solve W ex (run_options W) = Returned (Some problem) ∧
              v_filename v = result_file W problem ∧
              fig_filename =
                (_get_fig_filename (ebase_of examples_dir ex) images_dir).2)
      as Hhere.
    { intros H.
      destruct (iteration_render_source _ _ _ _ _ _ _ _ _ H)
        as (problem & Hs & ->).
      apply iteration_render in H as (_ & _ & _ & _ & _ & ->).
      exists x, problem. repeat split; [left|done]. }
    destruct (result (iteration W images_dir examples_dir view0 x))
      as [v1|e] eqn:Hx.
    + rewrite (for_fold_cons_returned _ _ _ _ _ Hx), trace_pair.
      rewrite elem_of_app. intros [H|H]; [by apply Hhere|].
      apply IH in H as (ex & problem & Hex & Hs & Hf & Hfig).
      exists ex, problem. repeat split; [by right|done..].
    + rewrite (for_fold_cons_raised _ _ _ _ _ Hx), trace_pair.
      apply Hhere.
Qed.

(** X7.  Whatever [generate_images] renders, it renders for a file found
    whose solve returned a problem, from the result file of that problem:
    the fixed single-step name under the scratch directory when the problem
    has no time-stepping configuration, the time-suffixed output name of
    the problem otherwise. *)
Theorem rendered_from_result_file
    (W : World) (images_dir examples_dir : string) (v : Viewer)
    (show is_scalar_bar : bool) (fig_filename : string) :
  ERender v show is_scalar_bar fig_filename ∈
    trace (generate_images W images_dir examples_dir) →
  ∃ ex problem,
    ex ∈ locate_files W "*.py" examples_dir ∧
    pde_solve W ex (solver_options (PosixPath.join (mkdtemp W) "result"))
    = Returned (Some problem) ∧
    v_filename v =
      match ts_conf problem with
      | None => PosixPath.join (mkdtemp W) "result" +:+ ".vtk"
      | Some _ => get_output_name problem (ts_suffix_step problem)
      end ∧
    fig_filename =
      (_get_fig_filename (ebase_of examples_dir ex) images_dir).2.
Proof.
  rewrite generate_images_run, trace_pair, elem_of_app.
  intros [H|H]; [event_in|]. by apply loop_render_source in H.
Qed.

Lemma rendered_from_result_file_witness :
  ∃ ex problem,
    ex ∈ locate_files Sample.W_render_fail "*.py" Sample.examples_dir ∧
    pde_solve Sample.W_render_fail ex
      (solver_options (PosixPath.join "/tmp/tmpX" "result"))
    = Returned (Some problem) ∧
    "/tmp/tmpX/result.010.vtk" =
      match ts_conf problem with
      | None => PosixPath.join "/tmp/tmpX" "result" +:+ ".vtk"
      | Some _ => get_output_name problem (ts_suffix_step problem)
      end ∧
    "/home/sfepy/doc/images/a-ex1.png" =
      (_get_fig_filename (ebase_of Sample.examples_dir ex)
         Sample.images_dir).2.
Proof.
  apply (rendered_from_result_file Sample.W_render_fail Sample.images_dir
           Sample.examples_dir
           (set_filename (new_viewer "/tmp/tmpX") "/tmp/tmpX/result.010.vtk")
           false true "/home/sfepy/doc/images/a-ex1.png").
  vm_compute. find_event.
Defined.



(** ** More on the documentation tree builder *)

Lemma dir_map_items_permutation (examples_dir : string)
    (found : list string) :
  mjoin (map_to_list (build_dir_map examples_dir found)).*2 ≡ₚ
  dir_map_item <$> filter (λ ex, kept ex = true) found.
Proof.
  induction found as [|x found IH] using rev_ind.
  { unfold build_dir_map. simpl. by rewrite map_to_list_empty. }
  rewrite build_dir_map_snoc, filter_app, fmap_app.
  unfold dir_map_step. rewrite filter_cons, filter_nil.
  destruct (kept x) eqn:Hk; unfold kept in Hk.
  - apply negb_true_iff in Hk. rewrite Hk.
    rewrite decide_True by done.
    fold (rst_name x). fold (dir_map_item x).
    set (k := PosixPath.dirname (ebase_of examples_dir x)).
    set (m := build_dir_map examples_dir found) in *.
    rewrite <- IH. clear IH.
    destruct (m !! k) as [l|] eqn:Hl; simpl default.
    + rewrite <- insert_delete_eq.
      rewrite map_to_list_insert by apply lookup_delete_eq.
      rewrite <- (map_to_list_delete m k l Hl).
      rewrite !fmap_cons. cbn [snd mjoin list_join].
      cbn [fmap list_fmap]. rewrite <- !(assoc_L (++)).
      apply Permutation_app; [done|]. apply Permutation_app_comm.
    + rewrite map_to_list_insert by done.
      rewrite fmap_cons. cbn [snd mjoin list_join].
      cbn [fmap list_fmap]. apply Permutation_app_comm.
  - apply negb_false_iff in Hk. rewrite Hk.
    rewrite decide_False by done. by rewrite app_nil_r.
Qed.

Lemma ordered_iteritems_permutation {V} `{Inhabited V}
    (adict : gmap string V) :
  ordered_iteritems adict ≡ₚ map_to_list adict.
Proof.
  unfold ordered_iteritems. rewrite merge_sort_Permutation.
  rewrite <- list_fmap_compose.
  rewrite <- (list_fmap_id (map_to_list adict)) at 2.
  apply Permutation_refl', list_fmap_ext.
  intros _ [k v] Hkv%list_elem_of_lookup_2%elem_of_map_to_list. simpl.
  by rewrite (lookup_total_correct _ _ _ Hkv).
Qed.

(** X9.  The groups that [generate_rst_files] walks partition the examples
    found and kept: taken together they hold each of them as often as it
    was found, with the page name derived from its base name; no group is
    empty; and every member of a group has the key of the group as the
    directory of its path below the examples directory. *)
Theorem groups_partition_kept (W : World) (examples_dir : string) :
  let found := locate_files W "*.py" examples_dir in
  let groups := ordered_iteritems (build_dir_map examples_dir found) in
  mjoin groups.*2 ≡ₚ
    (λ ex, (ex, PyStr.replace ".py" ".rst" (PosixPath.basename ex))) <$>
      filter (λ ex, PyStr.In_list (PosixPath.basename ex) omits = false)
        found ∧
  (∀ base_dir l,
     (base_dir, l) ∈ groups →
     l ≠ [] ∧
     ∀ ex rst_filename,
       (ex, rst_filename) ∈ l →
       ex ∈ found ∧
       PosixPath.dirname (ebase_of examples_dir ex) = base_dir).
Proof.
  intros found groups. subst groups. split.
  - rewrite ordered_iteritems_permutation, dir_map_items_permutation.
    apply Permutation_refl'. f_equal. apply list_filter_iff. intros ex.
    unfold kept. by rewrite negb_true_iff.
  - intros base_dir l
      [-> Hne]%elem_of_ordered_iteritems%build_dir_map_Some.
    split.
    + intros Hnil. apply fmap_nil_inv in Hnil. done.
    + intros ex rst_filename
        [ex' [[= <- _] Hm]]%list_elem_of_fmap.
      apply list_elem_of_filter in Hm as [[_ Hd] Hex]. done.
Qed.










(** The two index pages of the sample corpus with a top-level example. *)
Example top_level_pages :
  pages_closed
    (trace (generate_rst_files Sample.W_top Sample.rst_dir
              Sample.examples_dir Sample.images_dir)) =
  [("/home/sfepy/doc/examples/top.rst",
    content_page Sample.W_top Sample.examples_dir Sample.images_dir
      "/home/sfepy/examples/top.py");
   ("/home/sfepy/doc/examples/index.rst",
    _index "" "" "" +:+ "    top" +:+ nl);
   ("/home/sfepy/doc/examples/a/ex1.rst",
    content_page Sample.W_top Sample.examples_dir Sample.images_dir
      "/home/sfepy/examples/a/ex1.py");
   ("/home/sfepy/doc/examples/a/index.rst",
    _index "a" "a" "=" +:+ "    ex1" +:+ nl);
   ("/home/sfepy/doc/examples/index.rst",
    _index "sfepy" "SfePy autogenerated gallery"
      "===========================" +:+
    "    /index" +:+ nl +:+ "    a/index" +:+ nl)].
Proof. vm_compute. reflexivity. Qed.

(** ** Names of pages and entries *)

Lemma replace_go_dot_suffix (p new s : string) :
  PyStr.mem "." s = false →
  PyStr.replace_go (String "." p) new (s +:+ String "." p) 0 = s +:+ new.
Proof.
  intros Hs. induction s as [|a s IH].
  - change ("" +:+ String "." p) with (String "." p).
    cbn [PyStr.replace_go].
    rewrite <- (str_app_nil_r (String "." p)) at 2. rewrite prefix_app.
    cbn [String.length Nat.pred].
    rewrite <- (str_app_nil_r p) at 2. rewrite replace_go_skip.
    by rewrite str_app_nil_r.
  - simpl in Hs. apply orb_false_elim in Hs as [Ha Hs].
    rewrite !str_app_cons. cbn [PyStr.replace_go].
    assert (String.prefix (String "." p) (String a (s +:+ String "." p))
            = false) as ->.
    { cbn [String.prefix]. destruct (ascii_dec "." a) as [<-|_]; [|done].
      by rewrite Ascii.eqb_refl in Ha. }
    by rewrite IH.
Qed.

(** X12.  For an example file [stem.py] whose stem holds no dot, in
    whatever directory: the content page is named [stem.rst], and the entry
    for it in the index of its directory is [stem], the name of the page
    without its extension. *)
Theorem page_name_and_entry (dir stem : string) :
  PyStr.mem "/" stem = false →
  PyStr.mem "." stem = false →
  let ex_filename := dir +:+ "/" +:+ stem +:+ ".py" in
  let rst_filename :=
    PyStr.replace ".py" ".rst" (PosixPath.basename ex_filename) in
  rst_filename = stem +:+ ".rst" ∧
  PyStr.replace ".rst" "" rst_filename = stem ∧
  example_line (ex_filename, rst_filename) = "    " +:+ stem +:+ nl.
Proof.
  intros Hsep Hdot ex_filename rst_filename.
  assert (rst_filename = stem +:+ ".rst") as Hname.
  { subst rst_filename ex_filename. rewrite basename_app.
    - unfold PyStr.replace. by apply replace_go_dot_suffix.
    - by rewrite mem_app, Hsep. }
  assert (PyStr.replace ".rst" "" rst_filename = stem) as Hentry.
  { rewrite Hname. unfold PyStr.replace.
    rewrite replace_go_dot_suffix by done. apply str_app_nil_r. }
  split; [exact Hname|]. split; [exact Hentry|].
  unfold example_line. cbn [snd]. by rewrite Hentry.
Qed.

Lemma page_name_and_entry_witness :
  let ex_filename := "/home/sfepy/examples/a" +:+ "/" +:+ "ex1" +:+ ".py" in
  let rst_filename :=
    PyStr.replace ".py" ".rst" (PosixPath.basename ex_filename) in
  rst_filename = "ex1" +:+ ".rst" ∧
  PyStr.replace ".rst" "" rst_filename = "ex1" ∧
  example_line (ex_filename, rst_filename) = "    " +:+ "ex1" +:+ nl.
Proof.
  exact (page_name_and_entry "/home/sfepy/examples/a" "ex1" eq_refl eq_refl).
Defined.

(** ** Paths for the generated pages *)

Lemma count_go_separators (s : string) :
  PyStr.count_go "/" s 0 = Spec.separators s.
Proof.
  induction s as [|a s IH]; [done|].
  cbn [PyStr.count_go Spec.separators]. rewrite prefix_char.
  cbn [String.length Nat.pred]. rewrite IH.
  by destruct (Ascii.eqb a "/").
Qed.

Lemma drop_last_app (s t : string) :
  t ≠ "" → PyStr.drop_last (s +:+ t) = s +:+ PyStr.drop_last t.
Proof.
  intros Ht. induction s as [|a s IH]; [done|].
  rewrite !str_app_cons. cbn [PyStr.drop_last]. rewrite IH.
  destruct (s +:+ t) eqn:E; [|done].
  destruct s; [|done]. by destruct t.
Qed.

Lemma drop_last_parents (n : nat) :
  PyStr.drop_last (String.concat "" (replicate n "../")) = Spec.parents n.
Proof.
  unfold Spec.parents.
  induction n as [|[|n] IH]; [done..|].
  change (String.concat "" (replicate (S (S n)) "../"))
    with ("../" +:+ String.concat "" (replicate (S n) "../")).
  change (String.concat "/" (replicate (S (S n)) ".."))
    with ("../" +:+ String.concat "/" (replicate (S n) "..")).
  rewrite drop_last_app; [by rewrite IH|].
  destruct n; done.
Qed.

(** X13.  For a path that is the data directory followed by a rest in which
    the data directory does not occur again: the absolute-style sphinx path
    is [/..] followed by the rest, and the relative-style one is as many
    parent-directory segments as the rest has separators, followed by the
    rest (none, and the rest alone, when it has no separator). *)
Theorem sphinx_path_under_data_dir (W : World) (rest : string) :
  data_dir W ≠ "" →
  Spec.occurs (data_dir W) rest = false →
  _make_sphinx_path W (data_dir W +:+ rest) false = "/.." +:+ rest ∧
  _make_sphinx_path W (data_dir W +:+ rest) true =
    Spec.parents (Spec.separators rest) +:+ rest.
Proof.
  intros Hne Ho. unfold _make_sphinx_path.
  rewrite !replace_prefix by done. rewrite !(replace_absent _ _ _ Ho).
  split; [done|].
  change ("" +:+ rest) with rest. unfold PyStr.count.
  by rewrite count_go_separators, drop_last_parents.
Qed.

Lemma sphinx_path_under_data_dir_witness :
  _make_sphinx_path Sample.W ("/home/sfepy" +:+ "/examples/a/ex1.py") false
  = "/.." +:+ "/examples/a/ex1.py" ∧
  _make_sphinx_path Sample.W ("/home/sfepy" +:+ "/examples/a/ex1.py") true
  = Spec.parents (Spec.separators "/examples/a/ex1.py") +:+
    "/examples/a/ex1.py".
Proof.
  exact (sphinx_path_under_data_dir Sample.W "/examples/a/ex1.py"
           ltac:(done) eq_refl).
Defined.

(** ** A corpus with nothing to do *)

Lemma loop_all_omitted (W : World) (images_dir examples_dir : string)
    (found : list string) (view0 : Viewer) :
  (∀ ex, ex ∈ found → kept ex = false) →
  generate_images_loop W images_dir examples_dir view0 found =
  ([], Returned view0).
Proof.
  rewrite loop_unfold. induction found as [|x found IH]; intros Hk; [done|].
  simpl. rewrite body_omitted by (apply Hk; left).
  rewrite bind_ret. rewrite IH; [done|]. intros ex Hex. apply Hk. by right.
Qed.

Lemma build_dir_map_all_omitted (examples_dir : string)
    (found : list string) :
  (∀ ex, ex ∈ found → kept ex = false) →
  build_dir_map examples_dir found = ∅.
Proof.
  induction found as [|x found IH] using rev_ind; intros Hk; [done|].
  rewrite build_dir_map_snoc, IH.
  - unfold dir_map_step.
    assert (kept x = false) as Hx
      by (apply Hk, elem_of_app; right; left).
    unfold kept in Hx. apply negb_false_iff in Hx. by rewrite Hx.
  - intros ex Hex. apply Hk, elem_of_app. by left.
Qed.

(** X14.  When no file is found, or every file found is excluded:
    [generate_images] prepares the run and returns without a call of the
    solver or of the renderer, and [generate_rst_files] writes one page,
    the top-level index with its heading and no entry. *)
Theorem nothing_kept_nothing_done
    (W : World) (rst_dir examples_dir images_dir : string) :
  (∀ ex, ex ∈ locate_files W "*.py" examples_dir → kept ex = false) →
  generate_images W images_dir examples_dir =
  ([EMkdtemp (mkdtemp W);
    EEnsurePath (images_dir +:+ "/");
    ENewViewer (new_viewer (mkdtemp W));
    ELocateFiles "*.py" examples_dir], Returned tt) ∧
  pages_closed
    (trace (generate_rst_files W rst_dir examples_dir images_dir)) =
  [(PosixPath.join rst_dir "index.rst",
    _index "sfepy" "SfePy autogenerated gallery" (PyStr.repeat "=" 27))].
Proof.
  intros Hk. split.
  - rewrite generate_images_run.
    by rewrite (loop_all_omitted W images_dir examples_dir _ _ Hk).
  - rewrite generate_rst_files_run, trace_pair.
    unfold rst_events, rst_groups.
    rewrite (build_dir_map_all_omitted examples_dir _ Hk).
    unfold ordered_iteritems. rewrite map_to_list_empty.
    cbn. unfold main_index_page. cbn. by rewrite str_app_nil_r.
Qed.

Lemma nothing_kept_nothing_done_witness :
  generate_images Sample.W_thumbs Sample.images_dir Sample.examples_dir =
  ([EMkdtemp "/tmp/tmpX";
    EEnsurePath (Sample.images_dir +:+ "/");
    ENewViewer (new_viewer "/tmp/tmpX");
    ELocateFiles "*.py" Sample.examples_dir], Returned tt) ∧
  pages_closed
    (trace (generate_rst_files Sample.W_thumbs Sample.rst_dir
              Sample.examples_dir Sample.images_dir)) =
  [(PosixPath.join Sample.rst_dir "index.rst",
    _index "sfepy" "SfePy autogenerated gallery" (PyStr.repeat "=" 27))].
Proof.
  apply (nothing_kept_nothing_done Sample.W_thumbs Sample.rst_dir
           Sample.examples_dir Sample.images_dir).
  intros ex Hex. by apply elem_of_nil in Hex.
Defined.

(** ** The path of an example below the examples directory *)

Lemma replace_go_shrinks (old s : string) (skip : nat) :
  old ≠ "" →
  (String.length (PyStr.replace_go old "" s skip) ≤
   String.length s - skip)%nat ∧
  (Spec.occurs old (PyStr.drop skip s) = true →
   String.length (PyStr.replace_go old "" s skip) <
   String.length s - skip)%nat.
Proof.
  intros Hne. revert skip. induction s as [|a s IH]; intros skip.
  - split; [simpl; lia|]. destruct skip; simpl; by destruct old.
  - destruct skip as [|k].
    + cbn [PyStr.replace_go PyStr.drop Spec.occurs].
      destruct (String.prefix old (String a s)) eqn:Hp.
      * change ("" +:+ ?x) with x.
        destruct (IH (Nat.pred (String.length old))) as [Hle _].
        cbn [String.length]. split; [lia|]. intros _. lia.
      * destruct (IH 0%nat) as [Hle Hlt]. cbn [String.length orb].
        change (PyStr.drop 0 s) with s in Hlt.
        split; [lia|]. intros Ho. specialize (Hlt Ho). lia.
    + cbn [PyStr.replace_go PyStr.drop String.length].
      destruct (IH k) as [Hle Hlt]. split; [lia|]. intros Ho.
      specialize (Hlt Ho). lia.
Qed.

Lemma drop1_length (s : string) :
  String.length (PyStr.drop 1 s) = (String.length s - 1)%nat.
Proof. destruct s; simpl; [done|]. destruct s; simpl; lia. Qed.

(** X15.  The path below the examples directory that both loops derive
    from a discovered path [examples_dir/rel] is [rel] exactly when the
    name of the examples directory does not occur again in [/rel]. *)
Theorem ebase_is_relative_path_iff (examples_dir rel : string) :
  examples_dir ≠ "" →
  rel ≠ "" →
  PyStr.drop 1
    (PyStr.replace examples_dir "" (examples_dir +:+ "/" +:+ rel)) = rel
  ↔ Spec.occurs examples_dir ("/" +:+ rel) = false.
Proof.
  intros Hne Hrel. split.
  - intros H. destruct (Spec.occurs examples_dir ("/" +:+ rel)) eqn:Ho;
      [exfalso|done].
    rewrite replace_prefix in H by done.
    change ("" +:+ ?x) with x in H.
    apply (f_equal String.length) in H. rewrite drop1_length in H.
    destruct examples_dir as [|c d]; [done|]. unfold PyStr.replace in H.
    destruct (replace_go_shrinks (String c d) ("/" +:+ rel) 0 Hne)
      as [_ Hlt].
    assert (PyStr.drop 0 ("/" +:+ rel) = "/" +:+ rel) as Hd by done.
    rewrite Hd in Hlt. specialize (Hlt Ho).
    rewrite str_app_length in Hlt. simpl in Hlt.
    destruct rel; [done|]. simpl in *. lia.
  - apply ebase_of_rooted; done.
Qed.

Lemma ebase_is_relative_path_iff_witness :
  PyStr.drop 1 (PyStr.replace "/e" "" ("/e" +:+ "/" +:+ "a/e/x.py"))
  = "a/e/x.py"
  ↔ Spec.occurs "/e" ("/" +:+ "a/e/x.py") = false.
Proof.
  exact (ebase_is_relative_path_iff "/e" "a/e/x.py" ltac:(done) ltac:(done)).
Defined.
